(** * Context Rot Monitor: the drift-detection engine

    A shallow embedding of [backend/drift_engine.py] (the [DriftEngine]
    class with its two dataclasses) and of the part of [backend/main.py]
    that owns the engine instance, followed by the properties of the
    engine's state machine.

    Conventions of the embedding.
    - A Python [str] is a [string] whose characters are read as the code
      points 0..255; [str.lower] and [str.split] are written out for that
      range.
    - A Python [int] is a [Z]; [len] is [Z.of_nat (length _)].
    - A Python [float] is a rational [Q].  The only float operations of the
      engine are one division of two set sizes and one comparison with the
      threshold; rounding is not modelled.
    - [self] is threaded explicitly: a method returns its outcome together
      with the engine as the call leaves it, also when it raises.
    - [sklearn]'s [TfidfVectorizer.fit_transform] followed by
      [cosine_similarity] is outside the repository; it is a parameter
      (class [Vectorizer]) that either yields a score or raises.
    - [print] calls are dropped; [datetime.now()] is an argument. *)

From Stdlib Require Import ZArith QArith Ascii String List Sorted Lia.
From stdpp Require Import base decidable gmap strings list.
Import ListNotations.

Local Open Scope Z_scope.

(** ** Text primitives of Python used by the engine *)

Module PyStr.

(** [c.isspace()] for a code point below 256. *)
Definition isspace (c : ascii) : bool :=
  let n := N_of_ascii c in
  ((9 <=? n) && (n <=? 13) || (28 <=? n) && (n <=? 32)
   || (n =? 133) || (n =? 160))%N.

(** [c.lower()] for a code point below 256: the ASCII capitals and the
    Latin-1 capitals (0xC0..0xDE without the multiplication sign). *)
Definition lower_char (c : ascii) : ascii :=
  let n := N_of_ascii c in
  if ((65 <=? n) && (n <=? 90)
      || (192 <=? n) && (n <=? 222) && negb (n =? 215))%N
  then ascii_of_N (n + 32) else c.

(** [s.lower()] *)
Fixpoint lower (s : string) : string :=
  match s with
  | EmptyString => EmptyString
  | String c s' => String (lower_char c) (lower s')
  end.

(** [s.split()] with no separator: the maximal runs of characters that
    are not white space.  [cur] is the run being read, reversed. *)
Fixpoint split_go (cur : string) (s : string) : list string :=
  match s with
  | EmptyString =>
      match cur with
      | EmptyString => []
      | _ => [String.rev cur]
      end
  | String c s' =>
      if isspace c then
        match cur with
        | EmptyString => split_go EmptyString s'
        | _ => String.rev cur :: split_go EmptyString s'
        end
      else split_go (String c cur) s'
  end.

Definition split (s : string) : list string := split_go EmptyString s.

(** [sep.join(parts)] *)
Definition join (sep : string) (parts : list string) : string :=
  String.concat sep parts.

(** [l[-n:]] for a positive [n]: the last [n] elements, all of [l] when
    it is shorter. *)
Definition last_n {A} (n : nat) (l : list A) : list A :=
  skipn (length l - n)%nat l.

(** [a < b] on floats. *)
Definition float_lt (a b : Q) : bool := negb (Qle_bool b a).

(** [a / b] for two lengths, [b] positive. *)
Definition len_div (a b : nat) : Q := Z.of_nat a # Pos.of_nat b.

End PyStr.

(** ** The lexical fallback score (the [except] branch of [check_drift]) *)

Definition word_set (text : string) : gset string :=
  list_to_set (PyStr.split (PyStr.lower text)).

Definition fallback_similarity (north_star current_state : string) : Q :=
  let north_words := word_set north_star in
  let current_words := word_set current_state in
  if (0 <? size (north_words ∪ current_words))%nat
  then PyStr.len_div (size (north_words ∩ current_words))
                     (size (north_words ∪ current_words))
  else 0%Q.

(** ** Data model *)

(** Exceptions the engine can raise. *)
Inductive exn : Type :=
| ValueError (msg : string)
| ZeroDivisionError.

(** The outcome of a call: a returned value or a raised exception. *)
Inductive outcome (A : Type) : Type :=
| Return (a : A)
| Raise (e : exn).
Arguments Return {A} a.
Arguments Raise {A} e.

Module ConversationTurn.
Record t : Type := mk {
  turn_number : Z;
  user_message : string;
  assistant_response : string;
  timestamp : Z
}.
End ConversationTurn.

Module DriftMetrics.
Record t : Type := mk {
  turn_number : Z;
  similarity_score : Q;
  is_drifting : bool;
  last_good_turn : Z;
  drift_reason : option string
}.
End DriftMetrics.

(** The dictionary returned by [get_conversation_summary]. *)
Module Summary.
Record t : Type := mk {
  total_turns : Z;
  north_star : option string;
  last_good_turn : Z;
  current_drift_status : bool;
  drift_checks : Z;
  conversation_history : list (Z * string * string)
}.
End Summary.

(** The [try] block of [check_drift]: fit the vectorizer on the two texts
    and take the cosine of the two rows.  [None] stands for any exception
    raised inside the block. *)
Class Vectorizer : Type :=
  fit_transform_cosine : string -> string -> option Q.

(** ** The engine *)

Module DriftEngine.

Record t : Type := mk {
  threshold : Q;
  check_interval : Z;
  north_star : option string;
  conversation_history : list ConversationTurn.t;
  drift_history : list DriftMetrics.t;
  last_good_turn : Z;
  all_texts : list string
}.

(** [DriftEngine(similarity_threshold, check_interval)] *)
Definition __init__ (similarity_threshold : Q) (check_interval : Z) : t :=
  {| threshold := similarity_threshold;
     check_interval := check_interval;
     north_star := None;
     conversation_history := [];
     drift_history := [];
     last_good_turn := 0;
     all_texts := [] |}.

(** The defaults of the constructor's signature. *)
Definition default_similarity_threshold : Q := (45 # 100)%Q.
Definition default_check_interval : Z := 3.

Definition set_north_star (self : t) (initial_prompt : string) : t :=
  {| threshold := threshold self;
     check_interval := check_interval self;
     north_star := Some initial_prompt;
     conversation_history := conversation_history self;
     drift_history := drift_history self;
     last_good_turn := 1;
     all_texts := [initial_prompt] |}.

Definition turn_text (turn : ConversationTurn.t) : string :=
  ConversationTurn.user_message turn +:+ " " +:+
  ConversationTurn.assistant_response turn.

Definition generate_state_summary (self : t) : string :=
  let recent_turns := PyStr.last_n 3 (conversation_history self) in
  PyStr.join " " (map turn_text recent_turns).

(** The score of one evaluation: the vectorizer's cosine, or the lexical
    fallback when the vectorizer raises. *)
Definition similarity {V : Vectorizer} (north current_state : string) : Q :=
  match fit_transform_cosine north current_state with
  | Some s => s
  | None => fallback_similarity north current_state
  end.

Definition not_set_msg : string :=
  "North Star not set. Call set_north_star() first.".

Definition check_drift {V : Vectorizer} (self : t)
  : outcome DriftMetrics.t * t :=
  match north_star self with
  | None | Some EmptyString => (Raise (ValueError not_set_msg), self)
  | Some north =>
      let current_state := generate_state_summary self in
      let similarity := similarity north current_state in
      let is_drifting := PyStr.float_lt similarity (threshold self) in
      let turns := Z.of_nat (length (conversation_history self)) in
      let last_good := if is_drifting then last_good_turn self else turns in
      let metrics :=
        {| DriftMetrics.turn_number := turns;
           DriftMetrics.similarity_score := similarity;
           DriftMetrics.is_drifting := is_drifting;
           DriftMetrics.last_good_turn := last_good;
           DriftMetrics.drift_reason := None |} in
      (Return metrics,
       {| threshold := threshold self;
          check_interval := check_interval self;
          north_star := north_star self;
          conversation_history := conversation_history self;
          drift_history := drift_history self ++ [metrics];
          last_good_turn := last_good;
          all_texts := all_texts self |})
  end.

Definition add_turn {V : Vectorizer} (self : t)
    (user_message assistant_response : string) (now : Z)
  : outcome (option DriftMetrics.t) * t :=
  let turn_number := Z.of_nat (length (conversation_history self)) + 1 in
  let turn :=
    {| ConversationTurn.turn_number := turn_number;
       ConversationTurn.user_message := user_message;
       ConversationTurn.assistant_response := assistant_response;
       ConversationTurn.timestamp := now |} in
  let self1 :=
    {| threshold := threshold self;
       check_interval := check_interval self;
       north_star := north_star self;
       conversation_history := conversation_history self ++ [turn];
       drift_history := drift_history self;
       last_good_turn := last_good_turn self;
       all_texts :=
         all_texts self ++ [user_message +:+ " " +:+ assistant_response] |} in
  if check_interval self =? 0 then (Raise ZeroDivisionError, self1)
  else if turn_number mod check_interval self =? 0 then
    match check_drift self1 with
    | (Return metrics, self2) => (Return (Some metrics), self2)
    | (Raise e, self2) => (Raise e, self2)
    end
  else (Return None, self1).

Definition get_conversation_summary (self : t) : Summary.t :=
  {| Summary.total_turns := Z.of_nat (length (conversation_history self));
     Summary.north_star := north_star self;
     Summary.last_good_turn := last_good_turn self;
     Summary.current_drift_status :=
       match last (drift_history self) with
       | Some m => DriftMetrics.is_drifting m
       | None => false
       end;
     Summary.drift_checks := Z.of_nat (length (drift_history self));
     Summary.conversation_history :=
       map (fun turn => (ConversationTurn.turn_number turn,
                         ConversationTurn.user_message turn,
                         ConversationTurn.assistant_response turn))
           (conversation_history self) |}.

End DriftEngine.

(** ** The API layer's ownership of the engine ([backend/main.py]) *)

Module Main.

(** The module-level global [engine]. *)
Record state : Type := mk { engine : DriftEngine.t }.

(** [engine = DriftEngine(similarity_threshold=0.7, check_interval=3)] *)
Definition startup : state :=
  {| engine := DriftEngine.__init__ (7 # 10)%Q 3 |}.

(** [POST /reset] *)
Definition reset_conversation (st : state) : state :=
  {| engine := DriftEngine.__init__ (45 # 100)%Q 3 |}.

(** [POST /initialize] *)
Definition initialize_conversation (st : state) (north_star : string)
  : state :=
  {| engine := DriftEngine.set_north_star (engine st) north_star |}.

End Main.

(** ** A client's sequence of calls on one engine instance *)

Inductive call : Type :=
| SetNorthStar (initial_prompt : string)
| AddTurn (user_message assistant_response : string) (now : Z)
| CheckDrift.

(** The engine as one call leaves it, whether it returned or raised. *)
Definition after {V : Vectorizer} (self : DriftEngine.t) (c : call)
  : DriftEngine.t :=
  match c with
  | SetNorthStar p => DriftEngine.set_north_star self p
  | AddTurn u a now => snd (DriftEngine.add_turn self u a now)
  | CheckDrift => snd (DriftEngine.check_drift self)
  end.

Definition run {V : Vectorizer} (self : DriftEngine.t) (calls : list call)
  : DriftEngine.t :=
  fold_left after calls self.

Definition is_set_north_star (c : call) : bool :=
  match c with SetNorthStar _ => true | _ => false end.

(** A loop of [add_turn] calls, keeping what each call returned. *)
Fixpoint add_turns {V : Vectorizer} (self : DriftEngine.t)
    (turns : list (string * string * Z))
  : list (outcome (option DriftMetrics.t)) * DriftEngine.t :=
  match turns with
  | [] => ([], self)
  | (u, a, now) :: rest =>
      let (r, self1) := DriftEngine.add_turn self u a now in
      let (rs, self2) := add_turns self1 rest in
      (r :: rs, self2)
  end.

Definition is_verdict (r : outcome (option DriftMetrics.t)) : bool :=
  match r with Return (Some _) => true | _ => false end.

Definition count_verdicts (rs : list (outcome (option DriftMetrics.t))) : nat :=
  length (List.filter is_verdict rs).

Import DriftEngine.

(** ** Vocabulary of the properties *)

(** The goal is set in the sense of [check_drift]'s guard: the attribute
    is neither [None] nor the empty string. *)
Definition goal_set (self : t) : Prop :=
  exists north, north_star self = Some north /\ north <> "".

(** The engine once [add_turn] has appended the turn, before the
    interval test. *)
Definition with_turn (self : t) (u a : string) (now : Z) : t :=
  {| threshold := threshold self;
     check_interval := check_interval self;
     north_star := north_star self;
     conversation_history :=
       conversation_history self ++
       [{| ConversationTurn.turn_number :=
             Z.of_nat (length (conversation_history self)) + 1;
           ConversationTurn.user_message := u;
           ConversationTurn.assistant_response := a;
           ConversationTurn.timestamp := now |}];
     drift_history := drift_history self;
     last_good_turn := last_good_turn self;
     all_texts := all_texts self ++ [u +:+ " " +:+ a] |}.

(** The verdict and the engine that [check_drift] builds when the goal is
    [north]. *)
Definition verdict_of {V : Vectorizer} (self : t) (north : string)
  : DriftMetrics.t :=
  let score := similarity north (generate_state_summary self) in
  let drifting := PyStr.float_lt score (threshold self) in
  let turns := Z.of_nat (length (conversation_history self)) in
  {| DriftMetrics.turn_number := turns;
     DriftMetrics.similarity_score := score;
     DriftMetrics.is_drifting := drifting;
     DriftMetrics.last_good_turn :=
       if drifting then last_good_turn self else turns;
     DriftMetrics.drift_reason := None |}.

Definition evaluated {V : Vectorizer} (self : t) (north : string) : t :=
  let m := verdict_of self north in
  {| threshold := threshold self;
     check_interval := check_interval self;
     north_star := north_star self;
     conversation_history := conversation_history self;
     drift_history := drift_history self ++ [m];
     last_good_turn := DriftMetrics.last_good_turn m;
     all_texts := all_texts self |}.

(** The turns that a loop of [add_turn] calls appends when the history
    holds [n] turns: they are numbered [n + 1], [n + 2], ... *)
Fixpoint numbered (n : Z) (turns : list (string * string * Z))
  : list ConversationTurn.t :=
  match turns with
  | [] => []
  | (u, a, now) :: rest =>
      {| ConversationTurn.turn_number := n + 1;
         ConversationTurn.user_message := u;
         ConversationTurn.assistant_response := a;
         ConversationTurn.timestamp := now |} :: numbered (n + 1) rest
  end.

(** The reset that the specification ascribes to [setGoal]. *)
Definition fully_reset (self : t) : Prop :=
  conversation_history self = [] /\
  drift_history self = [] /\
  last_good_turn self = 1 /\
  Summary.total_turns (get_conversation_summary self) = 0 /\
  Summary.drift_checks (get_conversation_summary self) = 0 /\
  Summary.current_drift_status (get_conversation_summary self) = false.

(** [last_good_turn] never falls below a value it held earlier. *)
Definition never_rolls_back {V : Vectorizer} (self : t) : Prop :=
  forall calls1 calls2 : list call,
    last_good_turn (run self calls1) <=
    last_good_turn (run self (calls1 ++ calls2)).

(** The conversation history holds no turn. *)
Definition history_is_empty (self : t) : bool :=
  match conversation_history self with
  | [] => true
  | _ :: _ => false
  end.

(** Some [check_drift] of [calls] is made while the history holds no
    turn; [empty] tells whether the history is empty before the calls.
    After the first [add_turn] the history is never empty again. *)
Fixpoint checks_empty_history (empty : bool) (calls : list call) : bool :=
  match calls with
  | [] => false
  | AddTurn _ _ _ :: _ => false
  | CheckDrift :: rest => empty || checks_empty_history empty rest
  | SetNorthStar _ :: rest => checks_empty_history empty rest
  end.



Definition no_set_north_star (calls : list call) : Prop :=
  Forall (fun c => is_set_north_star c = false) calls.

(** The fallback score in the specification's words: the size of the
    intersection of the two word sets over the size of their union, and
    0 when the union is empty. *)
Definition jaccard (A B : gset string) : Q :=
  if decide (A ∪ B = ∅) then 0%Q
  else (inject_Z (Z.of_nat (size (A ∩ B))) /
        inject_Z (Z.of_nat (size (A ∪ B))))%Q.

(** ** Stand-ins for the external vectorizer

    [raising_vectorizer] is the vectorizer on texts that leave it no
    vocabulary: on documents made of English stop words only,
    [fit_transform] raises [ValueError] (empty vocabulary), and the engine
    takes the fallback branch.  [constant_vectorizer s] always succeeds
    with the score [s]. *)

Definition raising_vectorizer : Vectorizer := fun _ _ => None.


(** ** Concrete engines

    Their texts are English stop words or blank, so the vectorizer raises
    on them and the score is the lexical fallback. *)

(** [DriftEngine()] *)
Definition fresh_engine : t :=
  __init__ default_similarity_threshold default_check_interval.

(** Goal set on a new engine. *)
Definition initialized_engine : t := set_north_star fresh_engine "the".

(** Goal set, one on-goal turn. *)
Definition started_engine : t :=
  run (V := raising_vectorizer) fresh_engine
    [SetNorthStar "the"; AddTurn "the" "the" 0].

(** Goal set, three off-goal turns, one automatic verdict (drifting). *)
Definition used_engine : t :=
  run (V := raising_vectorizer) fresh_engine
    [SetNorthStar "the"; AddTurn "and" "of" 0; AddTurn "and" "of" 1;
     AddTurn "and" "of" 2].

(** Threshold 0, goal set, no turn yet. *)
Definition permissive_engine : t :=
  set_north_star (__init__ 0%Q default_check_interval) "the".

(** Goal [" "] and one turn of two empty messages. *)
Definition blank_engine : t :=
  run (V := raising_vectorizer) fresh_engine
    [SetNorthStar " "; AddTurn "" "" 0].

(** Goal set, two off-goal turns. *)
Definition two_turn_engine : t :=
  run (V := raising_vectorizer) fresh_engine
    [SetNorthStar "the"; AddTurn "and" "of" 0; AddTurn "and" "of" 1].

(** Interval 0, goal set. *)
Definition zero_interval_engine : t :=
  set_north_star (__init__ default_similarity_threshold 0) "the".

Definition six_turns : list (string * string * Z) :=
  [("the", "the", 0); ("the", "and", 1); ("and", "of", 2);
   ("of", "of", 3); ("and", "and", 4); ("of", "the", 5)].

(** * The collaborators of the engine *)

(** ** The supervisor ([backend/supervisor.py]) *)

Module SupervisorAnalysis.
Record t : Type := mk {
  is_pursuing_goal : bool;
  distraction : option string;
  realignment_instruction : string;
  confidence : string
}.
End SupervisorAnalysis.

(** The [try] block of [analyze_drift]: the chat completion request, the
    parsing of its JSON answer and the record built from it, as a function
    of the three arguments of the method.  [None] stands for any exception
    raised inside the block. *)
Class Judge : Type :=
  judged : string -> string -> Q -> option SupervisorAnalysis.t.

Module LLMSupervisor.

(** [a >= b] on floats. *)
Definition float_ge (a b : Q) : bool := Qle_bool b a.

Definition newline : string := String (ascii_of_nat 10) EmptyString.

(** The [except] branch of [analyze_drift]. *)
Definition fallback_analysis (north_star : string) (similarity_score : Q)
  : SupervisorAnalysis.t :=
  {| SupervisorAnalysis.is_pursuing_goal :=
       float_ge similarity_score (45 # 100)%Q;
     SupervisorAnalysis.distraction := Some "Unable to analyze (API error)";
     SupervisorAnalysis.realignment_instruction :=
       "Refocus on: " +:+ north_star;
     SupervisorAnalysis.confidence := "low" |}.

Definition analyze_drift {J : Judge} (north_star current_conversation : string)
    (similarity_score : Q) : SupervisorAnalysis.t :=
  match judged north_star current_conversation similarity_score with
  | Some analysis => analysis
  | None => fallback_analysis north_star similarity_score
  end.

(** [analysis.distraction or '...']: the default replaces [None] and the
    empty string. *)
Definition issue_identified (analysis : SupervisorAnalysis.t) : string :=
  match SupervisorAnalysis.distraction analysis with
  | None | Some EmptyString => "Conversation has drifted from original intent"
  | Some d => d
  end.

(** The sign that opens the intervention text, as the bytes of the source
    file. *)
Definition warning_sign : string := "‚ö†Ô∏è".

Definition generate_intervention_prompt (north_star : string)
    (analysis : SupervisorAnalysis.t) : string :=
  warning_sign +:+ " DRIFT DETECTED - REALIGNMENT REQUIRED" +:+
  newline +:+ newline +:+
  "Original Goal: " +:+ north_star +:+
  newline +:+ newline +:+
  "Issue Identified: " +:+ issue_identified analysis +:+
  newline +:+ newline +:+
  "Action Required: " +:+
  SupervisorAnalysis.realignment_instruction analysis +:+
  newline +:+ newline +:+
  "Please acknowledge the user's current question briefly, then redirect focus back to the original goal.".

End LLMSupervisor.

(** ** The request handlers ([backend/main.py]) *)

(** What a handler's [except Exception] clause can catch: an exception of
    the engine, or the validation error of a response model. *)
Inductive caught : Type :=
| EngineRaised (e : exn)
| ValidationError.

(** The answer to a request: status 200 with a body, or the
    [HTTPException] of status 500 whose detail is the text of the caught
    exception. *)
Inductive http (A : Type) : Type :=
| Ok200 (body : A)
| Http500 (cause : caught).
Arguments Ok200 {A} body.
Arguments Http500 {A} cause.

(** The dictionary [supervisor_data]. *)
Module SupervisorData.
Record t : Type := mk {
  pursuing_goal : bool;
  distraction : option string;
  realignment : string;
  confidence : string
}.
End SupervisorData.

Module DriftResponse.
Record t : Type := mk {
  turn_number : Z;
  similarity_score : Q;
  is_drifting : bool;
  last_good_turn : Z;
  supervisor_analysis : option SupervisorData.t;
  intervention_prompt : option string
}.
End DriftResponse.

Module ConversationState.
Record t : Type := mk {
  total_turns : Z;
  north_star : string;
  last_good_turn : Z;
  current_drift_status : bool;
  drift_checks : Z;
  recent_turns : list (Z * string * string)
}.
End ConversationState.

Module Endpoints.

(** [engine.north_star] where a handler formats it: the attribute is a
    string whenever a verdict exists. *)
Definition north_star_text (engine : DriftEngine.t) : string :=
  match DriftEngine.north_star engine with
  | Some north => north
  | None => "None"
  end.

(** The block that [add_conversation_turn] and [manual_drift_check]
    share: run the supervisor when the verdict is drifting, then build the
    response. *)
Definition drift_response {J : Judge} (engine : DriftEngine.t)
    (drift_metrics : DriftMetrics.t) : DriftResponse.t :=
  let '(supervisor_data, intervention) :=
    if DriftMetrics.is_drifting drift_metrics then
      let current_state := DriftEngine.generate_state_summary engine in
      let analysis :=
        LLMSupervisor.analyze_drift (north_star_text engine) current_state
          (DriftMetrics.similarity_score drift_metrics) in
      (Some {| SupervisorData.pursuing_goal :=
                 SupervisorAnalysis.is_pursuing_goal analysis;
               SupervisorData.distraction :=
                 SupervisorAnalysis.distraction analysis;
               SupervisorData.realignment :=
                 SupervisorAnalysis.realignment_instruction analysis;
               SupervisorData.confidence :=
                 SupervisorAnalysis.confidence analysis |},
       Some (LLMSupervisor.generate_intervention_prompt
               (north_star_text engine) analysis))
    else (None, None) in
  {| DriftResponse.turn_number := DriftMetrics.turn_number drift_metrics;
     DriftResponse.similarity_score :=
       DriftMetrics.similarity_score drift_metrics;
     DriftResponse.is_drifting := DriftMetrics.is_drifting drift_metrics;
     DriftResponse.last_good_turn :=
       DriftMetrics.last_good_turn drift_metrics;
     DriftResponse.supervisor_analysis := supervisor_data;
     DriftResponse.intervention_prompt := intervention |}.

(** [POST /add-turn] *)
Definition add_conversation_turn {V : Vectorizer} {J : Judge}
    (st : Main.state) (user_message assistant_response : string) (now : Z)
  : http (option DriftResponse.t) * Main.state :=
  match DriftEngine.add_turn (Main.engine st)
          user_message assistant_response now with
  | (Return None, engine) => (Ok200 None, {| Main.engine := engine |})
  | (Return (Some drift_metrics), engine) =>
      (Ok200 (Some (drift_response engine drift_metrics)),
       {| Main.engine := engine |})
  | (Raise e, engine) =>
      (Http500 (EngineRaised e), {| Main.engine := engine |})
  end.

(** [GET /check-drift] *)
Definition manual_drift_check {V : Vectorizer} {J : Judge} (st : Main.state)
  : http DriftResponse.t * Main.state :=
  match DriftEngine.check_drift (Main.engine st) with
  | (Return drift_metrics, engine) =>
      (Ok200 (drift_response engine drift_metrics),
       {| Main.engine := engine |})
  | (Raise e, engine) =>
      (Http500 (EngineRaised e), {| Main.engine := engine |})
  end.

(** [GET /get-state].  The response model declares [north_star: str]:
    building it from a summary whose goal is [None] fails validation, and
    the handler turns that into status 500. *)
Definition get_conversation_state (st : Main.state)
  : http ConversationState.t :=
  let summary := DriftEngine.get_conversation_summary (Main.engine st) in
  let recent_turns := PyStr.last_n 5 (Summary.conversation_history summary) in
  match Summary.north_star summary with
  | None => Http500 ValidationError
  | Some north =>
      Ok200 {| ConversationState.total_turns := Summary.total_turns summary;
               ConversationState.north_star := north;
               ConversationState.last_good_turn :=
                 Summary.last_good_turn summary;
               ConversationState.current_drift_status :=
                 Summary.current_drift_status summary;
               ConversationState.drift_checks :=
                 Summary.drift_checks summary;
               ConversationState.recent_turns := recent_turns |}
  end.

End Endpoints.

(** ** A client's sequence of requests to the service *)

Inductive request : Type :=
| Initialize (north_star : string)
| PostTurn (user_message assistant_response : string) (now : Z)
| GetCheckDrift
| GetState
| Reset.

(** The service as one request leaves it. *)
Definition served {V : Vectorizer} {J : Judge} (st : Main.state)
    (r : request) : Main.state :=
  match r with
  | Initialize north => Main.initialize_conversation st north
  | PostTurn u a now => snd (Endpoints.add_conversation_turn st u a now)
  | GetCheckDrift => snd (Endpoints.manual_drift_check st)
  | GetState => st
  | Reset => Main.reset_conversation st
  end.

Definition serve {V : Vectorizer} {J : Judge} (st : Main.state)
    (requests : list request) : Main.state :=
  fold_left served requests st.

Definition is_reset (r : request) : bool :=
  match r with Reset => true | _ => false end.

(** Stand-ins for the remote judge: one whose request always fails, and
    one that always answers with the same analysis. *)
Definition failing_judge : Judge := fun _ _ _ => None.
Definition constant_judge (a : SupervisorAnalysis.t) : Judge :=
  fun _ _ _ => Some a.

(** ** The interactive demo ([demo.py]) *)

(** [generate_agent_response]: the chat completion that plays the agent
    (with its own fallback text), as a function of the globals it reads
    and of its two arguments. *)
Class Agent : Type :=
  generate_agent_response :
    option string -> list (string * string) -> string -> bool -> string.

Module Demo.

(** [sub in s] *)
Definition contains (sub s : string) : bool :=
  match String.index 0 sub s with
  | Some _ => true
  | None => false
  end.

(** The module-level globals, the local [turn] of [run_demo], and the
    backend that the demo talks to.  The HTTP transport is taken to
    deliver every request and answer. *)
Record world : Type := mk {
  conversation_history : list (string * string);
  north_star : option string;
  drift_detected : bool;
  drift_started_turn : option Z;
  intervention_applied : bool;
  turn : Z;
  backend : Main.state
}.

Inductive flow : Type := Continue | Break.

(** [check_drift(user_msg, assistant_msg)]: the body of the answer to
    [POST /add-turn] when the status is 200 and the body is not null. *)
Definition check_drift {V : Vectorizer} {J : Judge} (st : Main.state)
    (user_msg assistant_msg : string) (now : Z)
  : option DriftResponse.t * Main.state :=
  match Endpoints.add_conversation_turn st user_msg assistant_msg now with
  | (Ok200 (Some body), st') => (Some body, st')
  | (_, st') => (None, st')
  end.

(** The test that decides an intervention, before the agent answers. *)
Definition should_intervene (w : world) : bool :=
  if drift_detected w && negb (intervention_applied w) then
    match drift_started_turn w with
    | Some started => 2 <=? turn w - started
    | None => false
    end
  else false.

Definition natural_ending (user_input agent_msg : string) : bool :=
  contains "no" (PyStr.lower user_input) &&
  existsb (fun w => contains w (PyStr.lower agent_msg))
          ["great day"; "anything else"; "welcome"].

(** The start of [run_demo], after the two checks: [POST /reset], then
    [turn = 1]. *)
Definition start (st : Main.state) : world :=
  {| conversation_history := [];
     north_star := None;
     drift_detected := false;
     drift_started_turn := None;
     intervention_applied := false;
     turn := 1;
     backend := Main.reset_conversation st |}.

(** One pass through the body of the [while] loop, for the line
    [user_input] as [strip] left it; [now] is the clock of the backend
    when it stores the turn. *)
Definition iteration {V : Vectorizer} {J : Judge} {A : Agent}
    (w : world) (user_input : string) (now : Z) : flow * world :=
  if existsb (String.eqb (PyStr.lower user_input)) ["quit"; "exit"]
  then (Break, w)
  else if String.eqb user_input "" then (Continue, w)
  else
    let north := if turn w =? 1 then Some user_input else north_star w in
    let backend1 :=
      if turn w =? 1
      then Main.initialize_conversation (backend w) user_input
      else backend w in
    let intervene := should_intervene w in
    let applied := if intervene then true else intervention_applied w in
    let agent_msg :=
      generate_agent_response north (conversation_history w)
        user_input intervene in
    let history := conversation_history w ++ [(user_input, agent_msg)] in
    let (drift_data, backend2) :=
      check_drift backend1 user_input agent_msg now in
    let (detected, started) :=
      match drift_data with
      | Some data =>
          if DriftResponse.is_drifting data then
            if negb (drift_detected w)
            then (true, Some (turn w))
            else (drift_detected w, drift_started_turn w)
          else
            if drift_detected w && negb applied
            then (false, None)
            else (drift_detected w, drift_started_turn w)
      | None => (drift_detected w, drift_started_turn w)
      end in
    let ended := natural_ending user_input agent_msg in
    (if ended then Break else Continue,
     {| conversation_history := history;
        north_star := north;
        drift_detected := detected;
        drift_started_turn := started;
        intervention_applied := applied;
        turn := if ended then turn w else turn w + 1;
        backend := backend2 |}).

(** The [while] loop over the lines typed, until a [break] or the end of
    the lines. *)
Fixpoint loop {V : Vectorizer} {J : Judge} {A : Agent}
    (w : world) (lines : list (string * Z)) : flow * world :=
  match lines with
  | [] => (Continue, w)
  | (user_input, now) :: rest =>
      match iteration w user_input now with
      | (Break, w') => (Break, w')
      | (Continue, w') => loop w' rest
      end
  end.

End Demo.

(** An agent that always gives the same answer. *)
Definition constant_agent (answer : string) : Agent :=
  fun _ _ _ _ => answer.

(** ** Vocabulary of the further properties *)

(** The numbers 1, 2, ..., [n]. *)
Definition one_to (n : nat) : list Z :=
  map (fun i => Z.of_nat i + 1) (seq 0 n).

(** The goal after a sequence of calls that starts with the goal [g]: the
    argument of the latest [set_north_star], if there is one. *)
Definition latest_goal (g : option string) (calls : list call)
  : option string :=
  fold_left (fun g c => match c with SetNorthStar p => Some p | _ => g end)
            calls g.

(** A verdict as the engine with threshold [th] and [n] turns may hold
    it. *)
Definition verdict_consistent (th : Q) (n : nat) (m : DriftMetrics.t) : Prop :=
  DriftMetrics.is_drifting m =
    PyStr.float_lt (DriftMetrics.similarity_score m) th /\
  0 <= DriftMetrics.turn_number m <= Z.of_nat n /\
  0 <= DriftMetrics.last_good_turn m /\
  (DriftMetrics.last_good_turn m <= DriftMetrics.turn_number m \/
   DriftMetrics.last_good_turn m = 1).

(** The texts that a loop of [add_turn] calls appends to [all_texts]. *)
Definition texts_of (turns : list (string * string * Z)) : list string :=
  map (fun turn => fst (fst turn) +:+ " " +:+ snd (fst turn)) turns.

(** The words of the turns in the window of the state summary. *)
Definition window_words (self : t) : gset string :=
  ⋃ map (fun turn => word_set (ConversationTurn.user_message turn) ∪
                     word_set (ConversationTurn.assistant_response turn))
        (PyStr.last_n 3 (conversation_history self)).

(** The threshold of the service after a sequence of requests. *)
Definition service_threshold (requests : list request) : Q :=
  if existsb is_reset requests then (45 # 100)%Q else (7 # 10)%Q.

(** The engine call that a request makes, if any. *)
Definition call_of (r : request) : list call :=
  match r with
  | Initialize north => [SetNorthStar north]
  | PostTurn u a now => [AddTurn u a now]
  | GetCheckDrift => [CheckDrift]
  | GetState | Reset => []
  end.

(** The engine calls made since the latest [Reset] (since the start of
    the service if there was none). *)
Definition calls_since_reset (requests : list request) : list call :=
  fold_left (fun calls r => if is_reset r then [] else calls ++ call_of r)
            requests [].

(** The goal is set in the sense of [check_drift]'s guard, as a
    test. *)
Definition goal_is_set (self : t) : bool :=
  match north_star self with
  | Some (String _ _) => true
  | _ => false
  end.

(** The service after [POST /initialize] and two turns. *)
Definition running_service : Main.state :=
  serve (V := raising_vectorizer) (J := failing_judge) Main.startup
    [Initialize "the"; PostTurn "and" "of" 0; PostTurn "and" "of" 1].

(** Goal set, one on-goal turn, then the three off-goal turns of
    [used_engine]. *)
Definition longer_engine : t :=
  run (V := raising_vectorizer) fresh_engine
    [SetNorthStar "the"; AddTurn "the" "the" 0; AddTurn "and" "of" 1;
     AddTurn "and" "of" 2; AddTurn "and" "of" 3].

(** The service as started, after [POST /initialize] and one turn that
    shares one of its two words with the goal. *)
Definition half_service : Main.state :=
  serve (V := raising_vectorizer) (J := failing_judge) Main.startup
    [Initialize "the"; PostTurn "the" "and" 0].

(** The demo's transcript and goal agree with what its backend holds. *)
Definition demo_synced (w : Demo.world) : Prop :=
  map (fun turn => (ConversationTurn.user_message turn,
                    ConversationTurn.assistant_response turn))
      (conversation_history (Main.engine (Demo.backend w))) =
    Demo.conversation_history w /\
  north_star (Main.engine (Demo.backend w)) = Demo.north_star w /\
  check_interval (Main.engine (Demo.backend w)) = 3 /\
  threshold (Main.engine (Demo.backend w)) = (45 # 100)%Q.

(** Where the demo stands with respect to drift: nothing detected; drift
    first detected at turn [d], a multiple of 3, at most two turns ago and
    no intervention yet; or intervention applied, more than two turns
    after the detection. *)
Definition phase_of (detected : bool) (started : option Z) (applied : bool)
    (turn : Z) : Prop :=
  (detected = false /\ started = None /\ applied = false) \/
  (detected = true /\ applied = false /\
   exists d, started = Some d /\ d mod 3 = 0 /\ d < turn <= d + 2) \/
  (detected = true /\ applied = true /\
   exists d, started = Some d /\ d mod 3 = 0 /\ d + 2 < turn).

Definition demo_phase (w : Demo.world) : Prop :=
  phase_of (Demo.drift_detected w) (Demo.drift_started_turn w)
           (Demo.intervention_applied w) (Demo.turn w).

(** What holds each time the loop asks for a line. *)
Definition demo_invariant (w : Demo.world) : Prop :=
  demo_synced w /\
  Demo.turn w = Z.of_nat (length (Demo.conversation_history w)) + 1 /\
  (1 < Demo.turn w -> goal_set (Main.engine (Demo.backend w))) /\
  demo_phase w.

(** Lines typed into the demo: the goal, then two off-goal lines (drift
    is detected at turn 3), and three lines that repeat the goal. *)
Definition drifting_lines : list (string * Z) :=
  [("the", 0); ("and", 1); ("and", 2)].

Definition returning_lines : list (string * Z) :=
  [("the", 3); ("the", 4); ("the", 5)].

(** * Properties *)

(** ** Evaluation on concrete texts *)

Example split_ex :
  PyStr.split "  Hello  big World " = ["Hello"; "big"; "World"].
Proof. reflexivity. Qed.

Example lower_ex :
  PyStr.lower "Refund For ORDER #12345" = "refund for order #12345".
Proof. reflexivity. Qed.

Example fallback_ex : fallback_similarity "the cat" "The dog" = (1 # 3)%Q.
Proof. vm_compute. reflexivity. Qed.

Example state_summary_ex :
  generate_state_summary
    (run (V := raising_vectorizer) fresh_engine
       [SetNorthStar "g"; AddTurn "u1" "a1" 0; AddTurn "u2" "a2" 0;
        AddTurn "u3" "a3" 0; AddTurn "u4" "a4" 0])
  = "u2 a2 u3 a3 u4 a4".
Proof. vm_compute. reflexivity. Qed.

Example used_engine_summary :
  get_conversation_summary (set_north_star used_engine "X")
  = {| Summary.total_turns := 3;
       Summary.north_star := Some "X";
       Summary.last_good_turn := 1;
       Summary.current_drift_status := true;
       Summary.drift_checks := 1;
       Summary.conversation_history :=
         [(1, "and", "of"); (2, "and", "of"); (3, "and", "of")] |}.
Proof. vm_compute. reflexivity. Qed.

Example six_turns_verdicts :
  map is_verdict (fst (add_turns (V := raising_vectorizer)
                         initialized_engine six_turns))
  = [false; false; true; false; false; true].
Proof. vm_compute. reflexivity. Qed.

(** ** Arithmetic of the score and of the interval test *)

Lemma pos_of_nat_Z (n : nat) :
  (0 < n)%nat -> Z.pos (Pos.of_nat n) = Z.of_nat n.
Proof.
  intros Hn. rewrite <- positive_nat_Z, Nat2Pos.id by lia. reflexivity.
Qed.

Lemma len_div_Qdiv (a b : nat) :
  (0 < b)%nat ->
  (PyStr.len_div a b == inject_Z (Z.of_nat a) / inject_Z (Z.of_nat b))%Q.
Proof.
  intros Hb. unfold PyStr.len_div.
  rewrite Qmake_Qdiv, pos_of_nat_Z by exact Hb. reflexivity.
Qed.


Lemma len_div_same (n : nat) : (0 < n)%nat -> (PyStr.len_div n n == 1)%Q.
Proof.
  intros Hn. unfold PyStr.len_div, Qeq; simpl.
  rewrite pos_of_nat_Z by exact Hn. lia.
Qed.

Lemma float_lt_iff (a b : Q) : PyStr.float_lt a b = true <-> (a < b)%Q.
Proof.
  unfold PyStr.float_lt. rewrite negb_true_iff.
  destruct (Qle_bool b a) eqn:Hle.
  - apply Qle_bool_iff in Hle. split; [discriminate|].
    intros Hlt. exfalso. exact (Qlt_not_le _ _ Hlt Hle).
  - split; [intros _|reflexivity].
    apply Qnot_le_lt. intros Hba. apply Qle_bool_iff in Hba. congruence.
Qed.

(** Among consecutive integers, the quotient by [k] moves exactly at the
    multiples of [k]. *)
Lemma div_succ (k n : Z) :
  0 < k ->
  (n + 1) / k - n / k = if (n + 1) mod k =? 0 then 1 else 0.
Proof.
  intros Hk.
  pose proof (Z.div_mod (n + 1) k ltac:(lia)) as Hdm.
  pose proof (Z.mod_pos_bound (n + 1) k Hk) as Hb.
  destruct (Z.eqb_spec ((n + 1) mod k) 0) as [H0|H0].
  - rewrite <- (Z.div_unique n k ((n + 1) / k - 1) (k - 1)); lia.
  - rewrite <- (Z.div_unique n k ((n + 1) / k) ((n + 1) mod k - 1)); lia.
Qed.


Lemma numbered_length (turns : list (string * string * Z)) :
  forall n : Z, length (numbered n turns) = length turns.
Proof.
  induction turns as [|[[u a] now] rest IH]; intros n; simpl;
    [reflexivity|]. now rewrite IH.
Qed.

Lemma numbered_lookup (turns : list (string * string * Z)) :
  forall (n : Z) (i : nat) (turn : ConversationTurn.t),
    numbered n turns !! i = Some turn ->
    ConversationTurn.turn_number turn = n + Z.of_nat i + 1.
Proof.
  induction turns as [|[[u a] now] rest IH]; intros n i turn Hl.
  - destruct i; discriminate.
  - destruct i as [|i]; simpl in Hl.
    + injection Hl as <-. simpl. lia.
    + apply IH in Hl. lia.
Qed.

(** ** The two methods that evaluate *)

Section Methods.

Context {V : Vectorizer}.

Lemma check_drift_initialized (self : t) (north : string) :
  north_star self = Some north -> north <> "" ->
  check_drift self = (Return (verdict_of self north), evaluated self north).
Proof.
  intros Hn Hne. unfold check_drift, evaluated. rewrite Hn.
  destruct north as [|c north']; [congruence|]. reflexivity.
Qed.

Lemma check_drift_not_initialized (self : t) :
  ~ goal_set self ->
  check_drift self = (Raise (ValueError not_set_msg), self).
Proof.
  intros Hg. unfold check_drift.
  destruct (north_star self) as [[|c north']|] eqn:Hn; try reflexivity.
  exfalso. apply Hg. exists (String c north').
  split; [assumption|discriminate].
Qed.

(** With no goal [check_drift] raises and the engine is left as it
    was. *)
Lemma check_drift_without_goal (self : t) :
  north_star self = None ->
  check_drift self = (Raise (ValueError not_set_msg), self).
Proof.
  intros Hn. apply check_drift_not_initialized.
  intros (north & Hs & _). congruence.
Qed.

Lemma check_drift_cases (self : t) :
  snd (check_drift self) = self \/
  exists north, snd (check_drift self) = evaluated self north.
Proof.
  unfold check_drift.
  destruct (north_star self) as [[|c n]|] eqn:Hn; simpl; auto.
  right. exists (String c n). unfold evaluated. rewrite Hn. reflexivity.
Qed.

Lemma check_drift_verdict (self self' : t) (m : DriftMetrics.t) :
  check_drift self = (Return m, self') ->
  exists north, north_star self = Some north /\ m = verdict_of self north.
Proof.
  unfold check_drift.
  destruct (north_star self) as [[|c n]|]; try discriminate.
  intros Heq. injection Heq as <- _. exists (String c n).
  split; reflexivity.
Qed.

(** [add_turn], with the appended engine named. *)
Lemma add_turn_unfold (self : t) (u a : string) (now : Z) :
  add_turn self u a now =
    if check_interval self =? 0
    then (Raise ZeroDivisionError, with_turn self u a now)
    else if (Z.of_nat (length (conversation_history self)) + 1)
              mod check_interval self =? 0
    then match check_drift (with_turn self u a now) with
         | (Return metrics, self2) => (Return (Some metrics), self2)
         | (Raise e, self2) => (Raise e, self2)
         end
    else (Return None, with_turn self u a now).
Proof. reflexivity. Qed.

Lemma add_turn_initialized (self : t) (north u a : string) (now : Z) :
  north_star self = Some north -> north <> "" ->
  check_interval self <> 0 ->
  add_turn self u a now =
    if (Z.of_nat (length (conversation_history self)) + 1)
         mod check_interval self =? 0
    then (Return (Some (verdict_of (with_turn self u a now) north)),
          evaluated (with_turn self u a now) north)
    else (Return None, with_turn self u a now).
Proof.
  intros Hn Hne Hk. rewrite add_turn_unfold.
  destruct (Z.eqb_spec (check_interval self) 0) as [|_]; [contradiction|].
  destruct (_ mod _ =? 0); [|reflexivity].
  rewrite (check_drift_initialized (with_turn self u a now) north);
    [reflexivity|exact Hn|exact Hne].
Qed.

(** [add_turn] has no guard on the goal: it appends the turn first,
    and fails only when the turn number reaches a multiple of the
    interval. *)
Lemma add_turn_without_goal (self : t) (u a : string) (now : Z) :
  north_star self = None ->
  check_interval self <> 0 ->
  add_turn self u a now =
    (if (Z.of_nat (length (conversation_history self)) + 1)
          mod check_interval self =? 0
     then Raise (ValueError not_set_msg) else Return None,
     with_turn self u a now).
Proof.
  intros Hn Hk. rewrite add_turn_unfold.
  destruct (Z.eqb_spec (check_interval self) 0) as [|_]; [contradiction|].
  destruct (_ mod _ =? 0); [|reflexivity].
  rewrite check_drift_without_goal by exact Hn. reflexivity.
Qed.

Lemma add_turn_verdict (self self' : t) (u a : string) (now : Z)
    (m : DriftMetrics.t) :
  add_turn self u a now = (Return (Some m), self') ->
  exists self1, check_drift (with_turn self u a now) = (Return m, self1).
Proof.
  rewrite add_turn_unfold.
  destruct (check_interval self =? 0); [discriminate|].
  destruct (_ mod _ =? 0); [|discriminate].
  destruct (check_drift (with_turn self u a now)) as [[m'|e] self2];
    [|discriminate].
  intros Heq. injection Heq as <- _. exists self2. reflexivity.
Qed.

(** Whatever it returns, [add_turn] leaves the history one turn
    longer, the new turn numbered by the new length. *)
Lemma add_turn_history (self : t) (u a : string) (now : Z) :
  conversation_history (snd (add_turn self u a now)) =
  conversation_history (with_turn self u a now).
Proof.
  rewrite add_turn_unfold.
  destruct (check_interval self =? 0); [reflexivity|].
  destruct (_ mod _ =? 0); [|reflexivity].
  destruct (check_drift_cases (with_turn self u a now))
    as [He | [north He]];
    destruct (check_drift (with_turn self u a now)) as [[m|e] self2];
    simpl in *; subst self2; reflexivity.
Qed.

Lemma add_turns_cons (self : t) (u a : string) (now : Z)
    (rest : list (string * string * Z)) :
  add_turns self ((u, a, now) :: rest) =
    (fst (add_turn self u a now) ::
       fst (add_turns (snd (add_turn self u a now)) rest),
     snd (add_turns (snd (add_turn self u a now)) rest)).
Proof.
  simpl. destruct (add_turn self u a now) as [r self1]. simpl.
  destruct (add_turns self1 rest) as [rs self2]. reflexivity.
Qed.

Lemma add_turns_history (turns : list (string * string * Z)) :
  forall self : t,
    conversation_history (snd (add_turns self turns)) =
    conversation_history self ++
    numbered (Z.of_nat (length (conversation_history self))) turns.
Proof.
  induction turns as [|[[u a] now] rest IH]; intros self.
  - simpl. now rewrite app_nil_r.
  - rewrite add_turns_cons. cbn [snd]. rewrite IH, add_turn_history.
    simpl. rewrite <- app_assoc, length_app. simpl.
    replace (Z.of_nat (length (conversation_history self) + 1))
      with (Z.of_nat (length (conversation_history self)) + 1) by lia.
    reflexivity.
Qed.

End Methods.

(** ** Sequences of calls *)

Section Sequences.

Context {V : Vectorizer}.

(** What a single [add_turn] does on an initialized engine with a
  positive interval. *)
Lemma add_turn_step (self : t) (u a : string) (now : Z) :
goal_set self -> 0 < check_interval self ->
let n := Z.of_nat (length (conversation_history self)) + 1 in
exists (v : option DriftMetrics.t) (self' : t),
  add_turn self u a now = (Return v, self') /\
  (is_Some v <-> n mod check_interval self = 0) /\
  goal_set self' /\
  check_interval self' = check_interval self /\
  length (conversation_history self') =
    S (length (conversation_history self)) /\
  drift_history self' =
    drift_history self ++ match v with Some m => [m] | None => [] end.
Proof.
intros (north & Hn & Hne) Hk n.
rewrite (add_turn_initialized self north u a now Hn Hne ltac:(lia)).
fold n. destruct (Z.eqb_spec (n mod check_interval self) 0) as [H0|H0].
- eexists _, _. split; [reflexivity|].
  repeat split; simpl; eauto.
  + exists north; auto.
  + rewrite length_app; simpl; lia.
- eexists _, _. split; [reflexivity|].
  repeat split; simpl.
  + intros [m Hm]; discriminate.
  + intros; contradiction.
  + exists north; auto.
  + rewrite length_app; simpl; lia.
  + now rewrite app_nil_r.
Qed.

Lemma count_verdicts_cons (v : option DriftMetrics.t)
  (rs : list (outcome (option DriftMetrics.t))) :
count_verdicts (Return v :: rs) =
  (match v with Some _ => 1 | None => 0 end + count_verdicts rs)%nat.
Proof. unfold count_verdicts. destruct v; reflexivity. Qed.

Lemma add_turns_spec (turns : list (string * string * Z)) :
forall self : t,
  goal_set self -> 0 < check_interval self ->
  let k := check_interval self in
  let n0 := Z.of_nat (length (conversation_history self)) in
  let rs := fst (add_turns self turns) in
  let self' := snd (add_turns self turns) in
  length rs = length turns /\
  (forall (i : nat) r, rs !! i = Some r ->
     exists v : option DriftMetrics.t,
       r = Return v /\
       (is_Some v <-> (n0 + Z.of_nat i + 1) mod k = 0)) /\
  Z.of_nat (count_verdicts rs) =
    (n0 + Z.of_nat (length turns)) / k - n0 / k /\
  length (drift_history self') =
    (length (drift_history self) + count_verdicts rs)%nat.
Proof.
induction turns as [|[[u a] now] rest IH]; intros self Hg Hk k n0.
- simpl. repeat split.
  + intros i r Hr. destruct i; discriminate.
  + rewrite Z.add_0_r. unfold count_verdicts. simpl. lia.
  + unfold count_verdicts. simpl. lia.
- rewrite add_turns_cons. cbn [fst snd].
  destruct (add_turn_step self u a now Hg Hk)
    as (v & self1 & Hadd & Hv & Hg1 & Hk1 & Hlen1 & Hd1).
  rewrite Hadd. cbn [fst snd].
  assert (Hk1' : 0 < check_interval self1) by (rewrite Hk1; exact Hk).
  destruct (IH self1 Hg1 Hk1') as (Hl & Hi & Hc & Hd).
  rewrite Hk1, Hlen1 in *. fold k in Hv, Hi, Hc. fold n0 in Hv.
  assert (Hn1 : Z.of_nat (S (length (conversation_history self))) = n0 + 1)
    by (subst n0; lia).
  rewrite Hn1 in *.
  assert (Hv1 : match v with Some _ => 1%nat | None => 0%nat end =
                Z.to_nat (if (n0 + 1) mod k =? 0 then 1 else 0)).
  { destruct (Z.eqb_spec ((n0 + 1) mod k) 0) as [H0|H0].
    - apply Hv in H0 as [m ->]. reflexivity.
    - destruct v as [m|]; [exfalso; apply H0, Hv; eauto|]. reflexivity. }
  rewrite count_verdicts_cons, Hv1.
  repeat split.
  + simpl. now rewrite Hl.
  + intros i r Hr. destruct i as [|i].
    * simpl in Hr. injection Hr as <-. exists v. split; [reflexivity|].
      replace (n0 + Z.of_nat 0 + 1) with (n0 + 1) by lia. exact Hv.
    * simpl in Hr. destruct (Hi i r Hr) as (v' & -> & Hv').
      exists v'. split; [reflexivity|].
      replace (n0 + Z.of_nat (S i) + 1) with (n0 + 1 + Z.of_nat i + 1)
        by lia.
      exact Hv'.
  + rewrite Nat2Z.inj_add, Hc.
    replace (n0 + Z.of_nat (length ((u, a, now) :: rest)))
      with (n0 + 1 + Z.of_nat (length rest)) by (simpl length; lia).
    pose proof (div_succ k n0 Hk) as Hs.
    destruct ((n0 + 1) mod k =? 0); simpl Z.of_nat; lia.
  + rewrite Hd, Hd1, length_app.
    destruct ((n0 + 1) mod k =? 0), v; simpl in *; lia.
Qed.



End Sequences.

(** * Properties of the specification *)

(** ** set_north_star *)

(** C1, as stated, fails: on an engine that holds three turns and one
    verdict, [set_north_star] leaves both histories in place, so the state
    is not the reset one. *)
Lemma C1_set_goal_does_not_reset :
  ~ fully_reset (set_north_star used_engine "X").
Proof.
  intros (Hc & _). vm_compute in Hc. discriminate Hc.
Qed.

(** C1, amended: [set_north_star] stores the goal, sets [last_good_turn]
    to 1 and [all_texts] to the goal alone, and leaves the conversation
    history, the drift history and the configuration as they were; the
    state after the call is the reset one (empty histories, and a summary
    with [total_turns = 0], [drift_checks = 0] and
    [current_drift_status = false]) when both histories were empty before
    the call, as on a newly constructed engine. *)
Theorem C1_set_north_star_effect : forall (self : t) (text : string),
  let self' := set_north_star self text in
  north_star self' = Some text /\
  last_good_turn self' = 1 /\
  all_texts self' = [text] /\
  conversation_history self' = conversation_history self /\
  drift_history self' = drift_history self /\
  threshold self' = threshold self /\
  check_interval self' = check_interval self /\
  (conversation_history self = [] -> drift_history self = [] ->
   fully_reset self').
Proof.
  intros self text self'.
  do 7 (split; [reflexivity|]).
  intros Hc Hd. unfold fully_reset, get_conversation_summary; simpl.
  rewrite Hc, Hd. repeat split.
Qed.

Lemma C1_set_north_star_effect_witness :
  fully_reset (set_north_star fresh_engine "X").
Proof.
  apply (C1_set_north_star_effect fresh_engine "X"); reflexivity.
Defined.

(** ** Calls before the goal is set *)

(** C2, evaluated on the code: on a newly constructed engine (no goal),
    the first [add_turn] returns [None] without any error and the history
    grows from 0 to 1; the third [add_turn] raises [ValueError], and the
    turn it was given is in the history all the same (length 3, not 2).
    [check_drift] on the same engine raises and leaves it as it was. *)
Theorem C2_add_turn_before_goal : forall V : Vectorizer,
  let e1 := snd (add_turn fresh_engine "a" "b" 0) in
  let e2 := snd (add_turn e1 "c" "d" 1) in
  north_star fresh_engine = None /\
  check_drift fresh_engine = (Raise (ValueError not_set_msg), fresh_engine) /\
  add_turn fresh_engine "a" "b" 0 = (Return None, e1) /\
  length (conversation_history fresh_engine) = 0%nat /\
  length (conversation_history e1) = 1%nat /\
  length (conversation_history e2) = 2%nat /\
  fst (add_turn e2 "e" "f" 2) = Raise (ValueError not_set_msg) /\
  length (conversation_history (snd (add_turn e2 "e" "f" 2))) = 3%nat.
Proof.
  intros V. repeat split.
Qed.

(** ** last_good_turn over the lifetime of an engine *)

(** C3, as stated, fails: after three on-goal turns [last_good_turn] is
    3, and a further [set_north_star] puts it back to 1. *)
Lemma C3_set_goal_rolls_back :
  ~ never_rolls_back (V := raising_vectorizer) fresh_engine.
Proof.
  intros Hmono.
  specialize (Hmono [SetNorthStar "the"; AddTurn "the" "the" 0;
                     AddTurn "the" "the" 1; AddTurn "the" "the" 2]
                    [SetNorthStar "the"]).
  vm_compute in Hmono. apply Hmono. reflexivity.
Qed.

(** ** The automatic trigger of add_turn *)

(** C4: on an engine whose goal is set and whose interval is positive,
    every call of a sequence of [add_turn] calls returns (none raises);
    the call that assigns turn number [n] returns a verdict if and only
    if [n mod check_interval = 0], and nothing otherwise; when the number
    of calls is [check_interval * m], exactly [m] of them return a
    verdict and the drift history grows by exactly [m]; and
    [set_north_star] adds no verdict. *)
Theorem C4_automatic_trigger :
  forall (V : Vectorizer) (self : t) (turns : list (string * string * Z)),
    goal_set self -> 0 < check_interval self ->
    let k := check_interval self in
    let n0 := Z.of_nat (length (conversation_history self)) in
    let rs := fst (add_turns self turns) in
    let self' := snd (add_turns self turns) in
    length rs = length turns /\
    (forall (i : nat) r, rs !! i = Some r ->
       exists (v : option DriftMetrics.t) (turn : ConversationTurn.t),
         r = Return v /\
         conversation_history self'
           !! (length (conversation_history self) + i)%nat = Some turn /\
         ConversationTurn.turn_number turn = n0 + Z.of_nat i + 1 /\
         (is_Some v <-> ConversationTurn.turn_number turn mod k = 0)) /\
    (forall m : nat,
       Z.of_nat (length turns) = k * Z.of_nat m ->
       count_verdicts rs = m /\
       length (drift_history self') = (length (drift_history self) + m)%nat) /\
    (forall p, drift_history (set_north_star self p) = drift_history self).
Proof.
  intros V self turns Hg Hk k n0 rs self'.
  destruct (add_turns_spec turns self Hg Hk) as (Hl & Hi & Hc & Hd).
  fold k n0 rs self' in Hl, Hi, Hc, Hd.
  split; [exact Hl|]. split; [|split; [|reflexivity]].
  - intros i r Hr. destruct (Hi i r Hr) as (v & -> & Hv).
    assert (Hlt : (i < length turns)%nat).
    { rewrite <- Hl. apply lookup_lt_is_Some. eauto. }
    destruct (lookup_lt_is_Some_2 (numbered n0 turns) i) as [turn Ht];
      [rewrite numbered_length; lia|].
    exists v, turn. split; [reflexivity|].
    pose proof (numbered_lookup turns n0 i turn Ht) as Hnum.
    split; [|split; [exact Hnum|rewrite Hnum; exact Hv]].
    subst self'. rewrite add_turns_history. fold n0.
    rewrite lookup_app_r by lia.
    replace (length (conversation_history self) + i
             - length (conversation_history self))%nat with i by lia.
    exact Ht.
  - intros m Hm.
    assert (Hcm : count_verdicts rs = m).
    { apply Nat2Z.inj. rewrite Hc, Hm.
      replace (n0 + k * Z.of_nat m) with (n0 + Z.of_nat m * k) by lia.
      rewrite Z.div_add by lia. lia. }
    split; [exact Hcm|]. rewrite Hd, Hcm. reflexivity.
Qed.

Lemma C4_automatic_trigger_witness :
  count_verdicts
    (fst (add_turns (V := raising_vectorizer) initialized_engine six_turns))
  = 2%nat /\
  length (drift_history
            (snd (add_turns (V := raising_vectorizer)
                    initialized_engine six_turns)))
  = (length (drift_history initialized_engine) + 2)%nat.
Proof.
  apply (C4_automatic_trigger raising_vectorizer initialized_engine six_turns).
  - exists "the". split; [reflexivity|discriminate].
  - reflexivity.
  - reflexivity.
Defined.

(** ** check_drift on an initialized engine *)

(** C5: with the goal set, [check_drift] returns a verdict and changes
    two attributes only.  [last_good_turn] becomes the number of turns
    when the score is not below the threshold and keeps its value
    otherwise; the verdict carries that updated value; the drift history
    gains the returned verdict as its one new last element; the
    conversation history, the goal, the configuration and [all_texts] are
    the same as before. *)
Theorem C5_check_drift_effect :
  forall (V : Vectorizer) (self : t) (north : string),
    north_star self = Some north -> north <> "" ->
    exists (m : DriftMetrics.t) (self' : t),
      check_drift self = (Return m, self') /\
      DriftMetrics.similarity_score m =
        similarity north (generate_state_summary self) /\
      last_good_turn self' =
        (if PyStr.float_lt (DriftMetrics.similarity_score m) (threshold self)
         then last_good_turn self
         else Z.of_nat (length (conversation_history self))) /\
      DriftMetrics.last_good_turn m = last_good_turn self' /\
      drift_history self' = drift_history self ++ [m] /\
      conversation_history self' = conversation_history self /\
      north_star self' = north_star self /\
      threshold self' = threshold self /\
      check_interval self' = check_interval self /\
      all_texts self' = all_texts self.
Proof.
  intros V self north Hn Hne.
  exists (verdict_of self north), (evaluated self north).
  split; [now apply check_drift_initialized|].
  repeat split.
Qed.

Lemma C5_check_drift_effect_witness :
  exists (m : DriftMetrics.t) (self' : t),
    check_drift (V := raising_vectorizer) started_engine = (Return m, self') /\
    DriftMetrics.similarity_score m =
      similarity (V := raising_vectorizer) "the"
        (generate_state_summary started_engine) /\
    last_good_turn self' =
      (if PyStr.float_lt (DriftMetrics.similarity_score m)
            (threshold started_engine)
       then last_good_turn started_engine
       else Z.of_nat (length (conversation_history started_engine))) /\
    DriftMetrics.last_good_turn m = last_good_turn self' /\
    drift_history self' = drift_history started_engine ++ [m] /\
    conversation_history self' = conversation_history started_engine /\
    north_star self' = north_star started_engine /\
    threshold self' = threshold started_engine /\
    check_interval self' = check_interval started_engine /\
    all_texts self' = all_texts started_engine.
Proof.
  apply (C5_check_drift_effect raising_vectorizer started_engine "the").
  - reflexivity.
  - discriminate.
Defined.

(** ** Range of the score and the drift flag *)




(** ** Two evaluations in a row *)

(** C7: two [check_drift] calls in a row on an initialized engine both
    return a verdict, the two verdicts carry the same similarity score
    (the score of the goal and the current window), and the drift history
    is two entries longer afterwards. *)
Theorem C7_check_drift_twice :
  forall (V : Vectorizer) (self : t) (north : string),
    north_star self = Some north -> north <> "" ->
    exists (m1 m2 : DriftMetrics.t) (self1 self2 : t),
      check_drift self = (Return m1, self1) /\
      check_drift self1 = (Return m2, self2) /\
      DriftMetrics.similarity_score m1 = DriftMetrics.similarity_score m2 /\
      DriftMetrics.similarity_score m1 =
        similarity north (generate_state_summary self) /\
      drift_history self2 = drift_history self ++ [m1; m2] /\
      length (drift_history self2) = (length (drift_history self) + 2)%nat.
Proof.
  intros V self north Hn Hne.
  exists (verdict_of self north),
         (verdict_of (evaluated self north) north),
         (evaluated self north),
         (evaluated (evaluated self north) north).
  split; [now apply check_drift_initialized|].
  split; [now apply check_drift_initialized|].
  repeat split.
  - simpl. rewrite <- app_assoc. reflexivity.
  - simpl. rewrite !length_app. simpl. lia.
Qed.

Lemma C7_check_drift_twice_witness :
  exists (m1 m2 : DriftMetrics.t) (self1 self2 : t),
    check_drift (V := raising_vectorizer) started_engine = (Return m1, self1) /\
    check_drift (V := raising_vectorizer) self1 = (Return m2, self2) /\
    DriftMetrics.similarity_score m1 = DriftMetrics.similarity_score m2 /\
    DriftMetrics.similarity_score m1 =
      similarity (V := raising_vectorizer) "the"
        (generate_state_summary started_engine) /\
    drift_history self2 = drift_history started_engine ++ [m1; m2] /\
    length (drift_history self2) =
      (length (drift_history started_engine) + 2)%nat.
Proof.
  apply (C7_check_drift_twice raising_vectorizer started_engine "the").
  - reflexivity.
  - discriminate.
Defined.

(** ** The lexical fallback score *)

(** C8, as stated, fails on identical texts that hold no word: the union
    is empty and the score is 0, not 1. *)
Lemma C8_identical_blank_texts :
  ~ (fallback_similarity " " " " == 1)%Q.
Proof. vm_compute. discriminate. Qed.

(** The engine reaches that case: on [blank_engine] the current state is
    [" "], identical to the goal, and the verdict's score is 0. *)
Example blank_engine_verdict :
  north_star blank_engine = Some " " /\
  generate_state_summary blank_engine = " " /\
  fst (check_drift (V := raising_vectorizer) blank_engine) =
    Return {| DriftMetrics.turn_number := 1;
              DriftMetrics.similarity_score := 0;
              DriftMetrics.is_drifting := true;
              DriftMetrics.last_good_turn := 1;
              DriftMetrics.drift_reason := None |}.
Proof. repeat split; vm_compute; reflexivity. Qed.

(** C8, amended: the fallback score is a total function of the two
    texts; it is the size of the intersection of the two lower-cased,
    white-space-split word sets over the size of their union, 0 when the
    union is empty; it is 0 for texts with disjoint vocabularies; for two
    identical texts it is 1 when the text holds at least one word, and 0
    when it holds none. *)
Theorem C8_fallback_similarity :
  forall a b : string,
    (fallback_similarity a b == jaccard (word_set a) (word_set b))%Q /\
    (word_set a ∩ word_set b = ∅ -> (fallback_similarity a b == 0)%Q) /\
    (word_set a <> ∅ -> (fallback_similarity a a == 1)%Q) /\
    (word_set a = ∅ -> (fallback_similarity a a == 0)%Q).
Proof.
  intros a b. repeat split.
  - unfold fallback_similarity, jaccard.
    destruct (Nat.ltb_spec 0 (size (word_set a ∪ word_set b))) as [Hu|Hu].
    + destruct (decide (word_set a ∪ word_set b = ∅)) as [He|_].
      * rewrite He, size_empty in Hu. lia.
      * now apply len_div_Qdiv.
    + destruct (decide (word_set a ∪ word_set b = ∅)) as [_|Hne];
        [reflexivity|].
      exfalso. apply Hne. apply leibniz_equiv, size_empty_iff. lia.
  - intros Hd. unfold fallback_similarity. rewrite Hd, size_empty.
    destruct (0 <? _)%nat; reflexivity.
  - intros Hne. unfold fallback_similarity.
    rewrite (idemp_L (∪) (word_set a)), (idemp_L (∩) (word_set a)).
    assert (Hs : (0 < size (word_set a))%nat).
    { destruct (size (word_set a)) eqn:Hsz; [|lia].
      exfalso. apply Hne. now apply leibniz_equiv, size_empty_iff. }
    destruct (Nat.ltb_spec 0 (size (word_set a))); [|lia].
    now apply len_div_same.
  - intros He. unfold fallback_similarity. rewrite He.
    vm_compute. reflexivity.
Qed.

Lemma C8_fallback_similarity_witness :
  (fallback_similarity "refund my order" "Login  email" == 0)%Q /\
  (fallback_similarity "Refund the ORDER" "Refund the ORDER" == 1)%Q /\
  (fallback_similarity " " " " == 0)%Q.
Proof.
  split; [|split].
  - apply (C8_fallback_similarity "refund my order" "Login  email").
    vm_compute. reflexivity.
  - apply (C8_fallback_similarity "Refund the ORDER" "").
    vm_compute. discriminate.
  - apply (C8_fallback_similarity " " "").
    vm_compute. reflexivity.
Defined.

(** ** The reset of the API layer *)

(** C9, evaluated on the code: the service starts with threshold 0.7 and
    interval 3; [reset_conversation] replaces the engine by a newly
    constructed one with interval 3 but threshold 0.45, the default of
    the standalone engine, which is not the threshold of the instance it
    replaces. *)
Theorem C9_reset_changes_threshold :
  threshold (Main.engine Main.startup) = (7 # 10)%Q /\
  check_interval (Main.engine Main.startup) = 3 /\
  Main.engine (Main.reset_conversation Main.startup) = fresh_engine /\
  check_interval (Main.engine (Main.reset_conversation Main.startup)) =
    check_interval (Main.engine Main.startup) /\
  threshold (Main.engine (Main.reset_conversation Main.startup)) =
    (45 # 100)%Q /\
  ~ (threshold (Main.engine (Main.reset_conversation Main.startup)) ==
     threshold (Main.engine Main.startup))%Q.
Proof.
  repeat split. vm_compute. discriminate.
Qed.

(** ** check_drift on an empty conversation *)



(** On [permissive_engine] the score is 0, not below the threshold 0, and
    the evaluation moves [last_good_turn] from 1 to 0. *)
Example permissive_engine_rolls_back :
  last_good_turn permissive_engine = 1 /\
  last_good_turn (after (V := raising_vectorizer) permissive_engine CheckDrift)
    = 0.
Proof. split; vm_compute; reflexivity. Qed.

(** Turn numbers start at 1: no history ever holds a turn numbered 0
    when built by [add_turn] from the empty one. *)
Example first_turn_number :
  map ConversationTurn.turn_number
    (conversation_history
       (after (V := raising_vectorizer) initialized_engine
          (AddTurn "and" "of" 0)))
  = [1].
Proof. reflexivity. Qed.

(** * Further properties of the engine *)

Section Invariants.

Context {V : Vectorizer}.

Lemma one_to_succ (n : nat) : one_to (S n) = one_to n ++ [Z.of_nat n + 1].
Proof. unfold one_to. rewrite seq_S, map_app. reflexivity. Qed.

(** Each call keeps the configuration. *)
Lemma after_configuration (self : t) (c : call) :
  threshold (after self c) = threshold self /\
  check_interval (after self c) = check_interval self.
Proof.
  destruct c as [p|u a now|]; simpl.
  - split; reflexivity.
  - rewrite add_turn_unfold.
    destruct (check_interval self =? 0); [split; reflexivity|].
    destruct (_ mod _ =? 0); [|split; reflexivity].
    destruct (check_drift_cases (with_turn self u a now))
      as [He | [north He]];
      destruct (check_drift (with_turn self u a now)) as [[m|e] self2];
      simpl in *; subst self2; split; reflexivity.
  - destruct (check_drift_cases self) as [-> | [north ->]];
      split; reflexivity.
Qed.

Lemma after_goal (self : t) (c : call) :
  north_star (after self c) =
    match c with SetNorthStar p => Some p | _ => north_star self end.
Proof.
  destruct c as [p|u a now|]; simpl.
  - reflexivity.
  - rewrite add_turn_unfold.
    destruct (check_interval self =? 0); [reflexivity|].
    destruct (_ mod _ =? 0); [|reflexivity].
    destruct (check_drift_cases (with_turn self u a now))
      as [He | [north He]];
      destruct (check_drift (with_turn self u a now)) as [[m|e] self2];
      simpl in *; subst self2; reflexivity.
  - destruct (check_drift_cases self) as [-> | [north ->]]; reflexivity.
Qed.

Lemma after_history (self : t) (c : call) :
  conversation_history (after self c) =
    conversation_history self ++
    match c with
    | AddTurn u a now =>
        [{| ConversationTurn.turn_number :=
              Z.of_nat (length (conversation_history self)) + 1;
            ConversationTurn.user_message := u;
            ConversationTurn.assistant_response := a;
            ConversationTurn.timestamp := now |}]
    | _ => []
    end.
Proof.
  destruct c as [p|u a now|]; simpl.
  - now rewrite app_nil_r.
  - now rewrite add_turn_history.
  - rewrite app_nil_r.
    destruct (check_drift_cases self) as [-> | [north ->]]; reflexivity.
Qed.

(** Each call leaves the drift history as it was or adds one verdict,
    which is the one an evaluation builds. *)
Lemma after_drift_history (self : t) (c : call) :
  (drift_history (after self c) = drift_history self /\
   last_good_turn (after self c) =
     match c with SetNorthStar _ => 1 | _ => last_good_turn self end) \/
  exists (self0 : t) (north : string),
    drift_history (after self c) =
      drift_history self ++ [verdict_of self0 north] /\
    last_good_turn (after self c) =
      DriftMetrics.last_good_turn (verdict_of self0 north) /\
    threshold self0 = threshold self /\
    last_good_turn self0 = last_good_turn self /\
    conversation_history self0 = conversation_history (after self c).
Proof.
  destruct c as [p|u a now|]; simpl.
  - left; split; reflexivity.
  - rewrite add_turn_unfold.
    destruct (check_interval self =? 0); [left; split; reflexivity|].
    destruct (_ mod _ =? 0); [|left; split; reflexivity].
    destruct (check_drift_cases (with_turn self u a now))
      as [He | [north He]];
      destruct (check_drift (with_turn self u a now)) as [[m|e] self2];
      simpl in *; subst self2; try (left; split; reflexivity);
      right; exists (with_turn self u a now), north; repeat split.
  - destruct (check_drift_cases self) as [-> | [north ->]];
      [left; split; reflexivity|].
    right. exists self, north. repeat split.
Qed.

Lemma configuration_and_interval_of_run (self : t) (calls : list call) :
  threshold (run self calls) = threshold self /\
  check_interval (run self calls) = check_interval self.
Proof.
  revert self. induction calls as [|c calls IH]; intros self;
    [split; reflexivity|].
  simpl. destruct (IH (after self c)) as [Ht Hk].
  destruct (after_configuration self c) as [Ht1 Hk1].
  unfold run in *. split; congruence.
Qed.

Lemma run_snoc (self : t) (calls : list call) (c : call) :
  run self (calls ++ [c]) = after (run self calls) c.
Proof. unfold run. rewrite fold_left_app. reflexivity. Qed.

End Invariants.

(** X1: whatever calls were made on an engine, and whether they returned
    or raised, its threshold and its interval are those it was constructed
    with, and its goal is the argument of the latest [set_north_star] (the
    goal it had before the calls if there was none): [add_turn] and
    [check_drift] never touch the goal. *)
Theorem configuration_and_goal_are_stable :
  forall (V : Vectorizer) (self : t) (calls : list call),
    threshold (run self calls) = threshold self /\
    check_interval (run self calls) = check_interval self /\
    north_star (run self calls) = latest_goal (north_star self) calls.
Proof.
  intros V self calls. revert self.
  induction calls as [|c calls IH]; intros self; [repeat split|].
  simpl. destruct (IH (after self c)) as (Ht & Hk & Hg).
  destruct (after_configuration self c) as [Ht1 Hk1].
  unfold run in *. rewrite Ht, Hk, Hg, Ht1, Hk1, after_goal.
  repeat split.
Qed.

(** X2: both histories are append-only: after any sequence of calls the
    conversation history and the drift history start with what they held
    before, [set_north_star] included. *)
Theorem histories_are_append_only :
  forall (V : Vectorizer) (self : t) (calls : list call),
    exists (turns : list ConversationTurn.t) (verdicts : list DriftMetrics.t),
      conversation_history (run self calls) =
        conversation_history self ++ turns /\
      drift_history (run self calls) = drift_history self ++ verdicts /\
      (length turns <= length calls)%nat /\
      (length verdicts <= length calls)%nat.
Proof.
  intros V self calls. revert self.
  induction calls as [|c calls IH]; intros self.
  - exists [], []. simpl. rewrite !app_nil_r. repeat split; lia.
  - simpl. destruct (IH (after self c)) as (ts & vs & Hc & Hd & Hlt & Hlv).
    unfold run in *. rewrite Hc, Hd, after_history.
    destruct (after_drift_history self c)
      as [[Hsame _] | (self0 & north & Hadd & _)].
    + rewrite Hsame. eexists _, vs. rewrite <- app_assoc.
      split; [reflexivity|]. split; [reflexivity|].
      rewrite length_app. destruct c; simpl; lia.
    + rewrite Hadd. eexists _, _. rewrite <- !app_assoc.
      split; [reflexivity|]. split; [reflexivity|].
      rewrite !length_app. destruct c; simpl; lia.
Qed.

(** X3: in every engine that calls build from a new one, the turns of
    the history are numbered 1, 2, ..., n without gap or repetition, also
    when some [add_turn] raised; the summary lists them under these
    numbers and reports n as [total_turns]. *)
Theorem turn_numbers_are_contiguous :
  forall (V : Vectorizer) (th : Q) (k : Z) (calls : list call),
    let self := run (__init__ th k) calls in
    let summary := get_conversation_summary self in
    map ConversationTurn.turn_number (conversation_history self) =
      one_to (length (conversation_history self)) /\
    map (fun entry => fst (fst entry)) (Summary.conversation_history summary) =
      one_to (length (conversation_history self)) /\
    Summary.total_turns summary =
      Z.of_nat (length (Summary.conversation_history summary)).
Proof.
  intros V th k calls self summary.
  assert (Hnum : map ConversationTurn.turn_number (conversation_history self) =
                 one_to (length (conversation_history self))).
  { subst self. induction calls as [|c calls IH] using rev_ind;
      [reflexivity|].
    rewrite run_snoc, after_history, map_app, length_app, IH.
    destruct c as [p|u a now|]; simpl.
    - now rewrite app_nil_r, Nat.add_0_r.
    - now rewrite Nat.add_1_r, one_to_succ.
    - now rewrite app_nil_r, Nat.add_0_r. }
  split; [exact Hnum|]. subst summary. simpl.
  rewrite map_map, length_map. simpl. split; [exact Hnum|reflexivity].
Qed.

Section Reachable.

Context {V : Vectorizer}.

Lemma StronglySorted_snoc (l : list Z) (y : Z) :
  StronglySorted Z.le l -> Forall (fun x => x <= y) l ->
  StronglySorted Z.le (l ++ [y]).
Proof.
  induction l as [|x l IH]; intros Hs Hall; simpl.
  - constructor; constructor.
  - inversion Hs as [|? ? Hs' Hx]; subst.
    inversion Hall as [|? ? Hxy Hall']; subst.
    constructor; [now apply IH|].
    apply Forall_app. split; [exact Hx|]. constructor; [exact Hxy|constructor].
Qed.

Lemma verdict_consistent_mono (th : Q) (n n' : nat) (m : DriftMetrics.t) :
  (n <= n')%nat -> verdict_consistent th n m -> verdict_consistent th n' m.
Proof.
  unfold verdict_consistent. intros Hn (H1 & H2 & H3 & H4).
  split; [exact H1|lia].
Qed.

(** What holds of every engine that calls build from a new one. *)
Lemma run_from_new (th : Q) (k : Z) (calls : list call) :
  let self := run (__init__ th k) calls in
  threshold self = th /\
  (0 <= last_good_turn self /\
   (last_good_turn self <= Z.of_nat (length (conversation_history self)) \/
    last_good_turn self = 1)) /\
  Forall (verdict_consistent th (length (conversation_history self)))
         (drift_history self) /\
  StronglySorted Z.le
    (map DriftMetrics.turn_number (drift_history self)).
Proof.
  simpl. induction calls as [|c calls IH] using rev_ind.
  - simpl. repeat split; try lia; constructor.
  - rewrite run_snoc.
    set (self := run (__init__ th k) calls) in *.
    destruct IH as (Hth & Hlg & Hall & Hsorted).
    destruct (after_configuration self c) as [Hth' _].
    assert (Hlen : (length (conversation_history self) <=
                    length (conversation_history (after self c)))%nat).
    { rewrite after_history, length_app. lia. }
    split; [congruence|].
    destruct (after_drift_history self c)
      as [[Hd Hl] | (self0 & north & Hd & Hl & Hth0 & Hl0 & Hh0)].
    + rewrite Hd, Hl. split; [destruct c; lia|]. split; [|exact Hsorted].
      eapply Forall_impl; [exact Hall|]. simpl.
      intros m. now apply verdict_consistent_mono.
    + assert (Hnew : verdict_consistent th
                       (length (conversation_history (after self c)))
                       (verdict_of self0 north)).
      { unfold verdict_consistent, verdict_of; simpl.
        rewrite Hth0, Hth, Hl0, Hh0.
        split; [reflexivity|]. destruct (PyStr.float_lt _ _); lia. }
      rewrite Hd, Hl. split; [|split].
      * destruct Hnew as (_ & Hn & H0 & Hb). split; [exact H0|].
        destruct Hb as [Hb|Hb]; [left|right; exact Hb].
        unfold verdict_of in *; simpl in *. rewrite Hh0 in *. lia.
      * apply Forall_app. split; [|constructor; [exact Hnew|constructor]].
        eapply Forall_impl; [exact Hall|]. simpl.
        intros m. now apply verdict_consistent_mono.
      * rewrite map_app. simpl. apply StronglySorted_snoc; [exact Hsorted|].
        apply Forall_map. eapply Forall_impl; [exact Hall|]. simpl.
        intros m (_ & Hm & _). rewrite Hh0. lia.
Qed.

End Reachable.

(** One call that is not [set_north_star], and not a [check_drift] on an
    empty history, does not lower [last_good_turn]. *)
Lemma after_not_lower {V : Vectorizer} (self : t) (c : call) :
  (last_good_turn self <= Z.of_nat (length (conversation_history self)) \/
   last_good_turn self = 1) ->
  is_set_north_star c = false ->
  (c = CheckDrift -> history_is_empty self = false) ->
  last_good_turn self <= last_good_turn (after self c).
Proof.
  intros Hb Hc He.
  destruct (after_drift_history self c)
    as [[_ Hl] | (self0 & north & _ & Hl & _ & Hl0 & Hh0)].
  - rewrite Hl. destruct c; [discriminate|lia|lia].
  - rewrite Hl. unfold verdict_of; simpl. rewrite Hl0.
    destruct (PyStr.float_lt _ _); [lia|].
    rewrite Hh0, after_history, length_app.
    destruct c as [p|u a now|]; [discriminate|simpl; lia|].
    simpl. rewrite Nat.add_0_r.
    specialize (He eq_refl). unfold history_is_empty in He.
    revert Hb He. destruct (conversation_history self); simpl;
      [discriminate|]. lia.
Qed.

(** C3, amended: [set_north_star] sets [last_good_turn] to 1 whatever it
    was (on a new engine it raises it from 0).  From any point of the
    lifetime of an engine on, the start of a conversation included, over
    any sequence of [add_turn] and [check_drift] calls in which no
    [check_drift] is made while the history is empty, [last_good_turn]
    does not fall below the value it had, also when a later evaluation
    judges the conversation drifting. *)
Theorem C3_last_good_turn_monotone :
  forall (V : Vectorizer) (th : Q) (k : Z) (calls1 calls2 : list call),
    let self := run (__init__ th k) calls1 in
    (forall p, last_good_turn (set_north_star self p) = 1) /\
    (forall p, last_good_turn (__init__ th k) <=
               last_good_turn (set_north_star (__init__ th k) p)) /\
    (no_set_north_star calls2 ->
     checks_empty_history (history_is_empty self) calls2 = false ->
     last_good_turn self <=
       last_good_turn (run (__init__ th k) (calls1 ++ calls2))).
Proof.
  intros V th k calls1 calls2 self.
  split; [reflexivity|]. split; [intros p; simpl; lia|].
  intros Hns Hce. unfold run. rewrite fold_left_app.
  change (last_good_turn self <= last_good_turn (run self calls2)).
  assert (Hb : last_good_turn self <=
                 Z.of_nat (length (conversation_history self)) \/
               last_good_turn self = 1)
    by apply (run_from_new th k calls1).
  clearbody self. revert self Hb Hce.
  induction calls2 as [|c calls2 IH]; intros self Hb Hce; [simpl; lia|].
  inversion Hns as [|? ? Hc Hrest]; subst.
  assert (Hstep : last_good_turn self <= last_good_turn (after self c)).
  { apply after_not_lower; [exact Hb|exact Hc|].
    intros ->. simpl in Hce. now apply orb_false_elim in Hce as [He _]. }
  assert (Hb' : last_good_turn (after self c) <=
                  Z.of_nat (length (conversation_history (after self c))) \/
                last_good_turn (after self c) = 1).
  { destruct (after_drift_history self c)
      as [[_ Hl] | (self0 & north & _ & Hl & _ & Hl0 & Hh0)].
    - rewrite Hl, after_history, length_app.
      destruct c; [discriminate|lia|lia].
    - rewrite Hl. unfold verdict_of; simpl. rewrite Hl0, Hh0.
      destruct (PyStr.float_lt _ _); [|lia].
      rewrite after_history, length_app. lia. }
  assert (Hce' : checks_empty_history (history_is_empty (after self c))
                   calls2 = false).
  { destruct c as [p|u a now|]; [discriminate| |].
    - destruct calls2 as [|c2 rest]; [reflexivity|].
      assert (He : history_is_empty (after self (AddTurn u a now)) = false).
      { unfold history_is_empty. rewrite after_history.
        destruct (conversation_history self); reflexivity. }
      rewrite He. clear. generalize (c2 :: rest). intros l.
      induction l as [|[p|u a now|] l IHl]; simpl; auto.
    - simpl in Hce. apply orb_false_elim in Hce as [He Hce].
      assert (He' : history_is_empty (after self CheckDrift) =
                    history_is_empty self).
      { unfold history_is_empty. rewrite after_history, app_nil_r.
        reflexivity. }
      rewrite He'. exact Hce. }
  specialize (IH Hrest (after self c) Hb' Hce').
  simpl. unfold run in *. lia.
Qed.

Lemma C3_last_good_turn_monotone_witness :
  last_good_turn
    (run (V := raising_vectorizer)
       (__init__ default_similarity_threshold default_check_interval)
       [SetNorthStar "the"]) <=
  last_good_turn
    (run (V := raising_vectorizer)
       (__init__ default_similarity_threshold default_check_interval)
       ([SetNorthStar "the"] ++
        [AddTurn "the" "the" 0; AddTurn "the" "the" 1; AddTurn "the" "the" 2;
         AddTurn "and" "of" 3; CheckDrift])).
Proof.
  apply (C3_last_good_turn_monotone raising_vectorizer
           default_similarity_threshold default_check_interval
           [SetNorthStar "the"]
           [AddTurn "the" "the" 0; AddTurn "the" "the" 1;
            AddTurn "the" "the" 2; AddTurn "and" "of" 3; CheckDrift]).
  - repeat constructor.
  - reflexivity.
Defined.

(** X4: in every engine that calls build from a new one,
    [last_good_turn] is never negative, and it is at most the number of
    recorded turns unless it is the 1 that [set_north_star] assigns. *)
Theorem last_good_turn_is_bounded :
  forall (V : Vectorizer) (th : Q) (k : Z) (calls : list call),
    let self := run (__init__ th k) calls in
    0 <= last_good_turn self /\
    (last_good_turn self <= Z.of_nat (length (conversation_history self)) \/
     last_good_turn self = 1).
Proof.
  intros V th k calls. apply (run_from_new th k calls).
Qed.

(** X5: in every engine that calls build from a new one, each verdict of
    the drift history has its flag equal to [score < threshold] for the
    threshold of the constructor, a turn number between 0 and the number
    of recorded turns, and a [last_good_turn] that is not negative and
    does not exceed its turn number unless it is 1; the verdicts appear
    in the order of their turn numbers. *)
Theorem drift_history_is_consistent :
  forall (V : Vectorizer) (th : Q) (k : Z) (calls : list call),
    let self := run (__init__ th k) calls in
    Forall (verdict_consistent th (length (conversation_history self)))
           (drift_history self) /\
    StronglySorted Z.le
      (map DriftMetrics.turn_number (drift_history self)).
Proof.
  intros V th k calls. apply (run_from_new th k calls).
Qed.

Section Bookkeeping.

Context {V : Vectorizer}.

Lemma add_turn_all_texts (self : t) (u a : string) (now : Z) :
  all_texts (snd (add_turn self u a now)) =
    all_texts self ++ [u +:+ " " +:+ a].
Proof.
  rewrite add_turn_unfold.
  destruct (check_interval self =? 0); [reflexivity|].
  destruct (_ mod _ =? 0); [|reflexivity].
  destruct (check_drift_cases (with_turn self u a now))
    as [He | [north He]];
    destruct (check_drift (with_turn self u a now)) as [[m|e] self2];
    simpl in *; subst self2; reflexivity.
Qed.

Lemma add_turn_zero_interval (self : t) (u a : string) (now : Z) :
  check_interval self = 0 ->
  add_turn self u a now = (Raise ZeroDivisionError, with_turn self u a now).
Proof. intros Hk. rewrite add_turn_unfold, Hk. reflexivity. Qed.

End Bookkeeping.

(** X6: when an evaluation returns a verdict, through [check_drift] or
    through [add_turn], the summary taken right after reports that
    verdict's flag as [current_drift_status] and its [last_good_turn],
    counts one more drift check, and keeps the goal; [total_turns] is
    unchanged by [check_drift] and one more after [add_turn]. *)
Theorem summary_after_verdict :
  forall (V : Vectorizer) (self self' : t) (m : DriftMetrics.t) (added : Z),
    (check_drift self = (Return m, self') /\ added = 0 \/
     (exists u a now, add_turn self u a now = (Return (Some m), self')) /\
     added = 1) ->
    let before := get_conversation_summary self in
    let summary := get_conversation_summary self' in
    Summary.current_drift_status summary = DriftMetrics.is_drifting m /\
    Summary.last_good_turn summary = DriftMetrics.last_good_turn m /\
    Summary.drift_checks summary = Summary.drift_checks before + 1 /\
    Summary.total_turns summary = Summary.total_turns before + added /\
    Summary.total_turns summary = DriftMetrics.turn_number m /\
    Summary.north_star summary = Summary.north_star before.
Proof.
  intros V self self' m added Hm before summary.
  assert (Hev : exists self0 north,
             check_drift self0 = (Return m, self') /\
             north_star self0 = Some north /\ north <> "" /\
             north_star self0 = north_star self /\
             drift_history self0 = drift_history self /\
             Z.of_nat (length (conversation_history self0)) =
               Z.of_nat (length (conversation_history self)) + added).
  { destruct Hm as [[Hc ->] | [(u & a & now & Ha) ->]].
    - destruct (check_drift_verdict _ _ _ Hc) as (north & Hn & _).
      exists self, north. repeat split; try assumption; try lia.
      intros ->. unfold check_drift in Hc. rewrite Hn in Hc. discriminate.
    - destruct (add_turn_verdict _ _ _ _ _ _ Ha) as (self1 & Hc).
      assert (self1 = self') as ->.
      { rewrite add_turn_unfold in Ha.
        destruct (check_interval self =? 0); [discriminate|].
        destruct (_ mod _ =? 0); [|discriminate].
        rewrite Hc in Ha. congruence. }
      destruct (check_drift_verdict _ _ _ Hc) as (north & Hn & _).
      exists (with_turn self u a now), north.
      repeat split; try assumption.
      + intros ->. unfold check_drift in Hc. rewrite Hn in Hc. discriminate.
      + simpl. rewrite length_app. simpl. lia. }
  destruct Hev as (self0 & north & Hc & Hn & Hne & Hg & Hd & Hl).
  rewrite (check_drift_initialized self0 north Hn Hne) in Hc.
  injection Hc as <- <-.
  subst before summary. unfold get_conversation_summary; simpl.
  rewrite last_snoc, length_app, Hd, Hg. simpl.
  repeat split; lia.
Qed.

Lemma summary_after_verdict_witness :
  Summary.current_drift_status
    (get_conversation_summary
       (evaluated (V := raising_vectorizer) started_engine "the")) =
    DriftMetrics.is_drifting
      (verdict_of (V := raising_vectorizer) started_engine "the") /\
  Summary.last_good_turn
    (get_conversation_summary
       (evaluated (V := raising_vectorizer) started_engine "the")) =
    DriftMetrics.last_good_turn
      (verdict_of (V := raising_vectorizer) started_engine "the") /\
  Summary.drift_checks
    (get_conversation_summary
       (evaluated (V := raising_vectorizer) started_engine "the")) =
    Summary.drift_checks (get_conversation_summary started_engine) + 1 /\
  Summary.total_turns
    (get_conversation_summary
       (evaluated (V := raising_vectorizer) started_engine "the")) =
    Summary.total_turns (get_conversation_summary started_engine) + 0 /\
  Summary.total_turns
    (get_conversation_summary
       (evaluated (V := raising_vectorizer) started_engine "the")) =
    DriftMetrics.turn_number
      (verdict_of (V := raising_vectorizer) started_engine "the") /\
  Summary.north_star
    (get_conversation_summary
       (evaluated (V := raising_vectorizer) started_engine "the")) =
    Summary.north_star (get_conversation_summary started_engine).
Proof.
  apply (summary_after_verdict raising_vectorizer started_engine).
  left. split; reflexivity.
Defined.

(** X7: with [check_interval = 0] every [add_turn] raises
    [ZeroDivisionError], yet each call has stored its turn: after a loop
    of such calls the history holds all the new turns, numbered on from
    the old length, while the drift history and [last_good_turn] are
    untouched. *)
Theorem add_turn_with_zero_interval :
  forall (V : Vectorizer) (self : t) (turns : list (string * string * Z)),
    check_interval self = 0 ->
    let results := fst (add_turns self turns) in
    let self' := snd (add_turns self turns) in
    results = map (fun _ => Raise ZeroDivisionError) turns /\
    conversation_history self' =
      conversation_history self ++
      numbered (Z.of_nat (length (conversation_history self))) turns /\
    drift_history self' = drift_history self /\
    last_good_turn self' = last_good_turn self.
Proof.
  intros V self turns. revert self.
  induction turns as [|[[u a] now] rest IH]; intros self Hk; simpl.
  - rewrite app_nil_r. repeat split.
  - rewrite add_turn_zero_interval by exact Hk.
    destruct (IH (with_turn self u a now) Hk) as (Hr & Hc & Hd & Hl).
    destruct (add_turns (with_turn self u a now) rest) as [rs self2].
    simpl in *. subst rs. rewrite Hc, Hd, Hl. simpl.
    rewrite <- app_assoc, length_app. simpl.
    replace (Z.of_nat (length (conversation_history self) + 1))
      with (Z.of_nat (length (conversation_history self)) + 1) by lia.
    repeat split.
Qed.

Lemma add_turn_with_zero_interval_witness :
  fst (add_turns (V := raising_vectorizer)
         zero_interval_engine
         six_turns) =
    map (fun _ => Raise ZeroDivisionError) six_turns /\
  conversation_history
    (snd (add_turns (V := raising_vectorizer)
            zero_interval_engine
            six_turns)) =
    conversation_history
      zero_interval_engine ++
    numbered
      (Z.of_nat (length (conversation_history
         zero_interval_engine)))
      six_turns /\
  drift_history
    (snd (add_turns (V := raising_vectorizer)
            zero_interval_engine
            six_turns)) =
    drift_history
      zero_interval_engine /\
  last_good_turn
    (snd (add_turns (V := raising_vectorizer)
            zero_interval_engine
            six_turns)) =
    last_good_turn
      zero_interval_engine.
Proof.
  apply (add_turn_with_zero_interval raising_vectorizer
           zero_interval_engine
           six_turns).
  reflexivity.
Defined.

(** X8: a verdict that [add_turn] returns is about the turn just added:
    the goal was set, the interval is not 0, the verdict's turn number is
    the number of the new turn and a multiple of the interval, and the
    verdict is the last entry of the drift history. *)
Theorem add_turn_verdict_is_for_new_turn :
  forall (V : Vectorizer) (self self' : t) (u a : string) (now : Z)
         (m : DriftMetrics.t),
    add_turn self u a now = (Return (Some m), self') ->
    goal_set self /\
    check_interval self <> 0 /\
    DriftMetrics.turn_number m =
      Z.of_nat (length (conversation_history self)) + 1 /\
    DriftMetrics.turn_number m mod check_interval self = 0 /\
    (ConversationTurn.turn_number <$> last (conversation_history self')) =
      Some (DriftMetrics.turn_number m) /\
    drift_history self' = drift_history self ++ [m].
Proof.
  intros V self self' u a now m Ha.
  pose proof Ha as Ha'. rewrite add_turn_unfold in Ha'.
  destruct (Z.eqb_spec (check_interval self) 0) as [|Hk]; [discriminate|].
  destruct (Z.eqb_spec ((Z.of_nat (length (conversation_history self)) + 1)
                          mod check_interval self) 0) as [Hmod|];
    [|discriminate].
  destruct (check_drift (with_turn self u a now)) as [[m'|e] self2] eqn:Hc;
    [|discriminate].
  injection Ha' as -> ->.
  destruct (check_drift_verdict _ _ _ Hc) as (north & Hn & Hm).
  assert (Hne : north <> "").
  { intros ->. unfold check_drift in Hc. rewrite Hn in Hc. discriminate. }
  rewrite (check_drift_initialized _ north Hn Hne) in Hc.
  injection Hc as _ <-.
  assert (Hnum : DriftMetrics.turn_number m =
                 Z.of_nat (length (conversation_history self)) + 1).
  { subst m. simpl. rewrite length_app. simpl. lia. }
  split; [exists north; split; assumption|].
  split; [exact Hk|]. split; [exact Hnum|].
  split; [rewrite Hnum; exact Hmod|].
  split.
  - simpl. rewrite last_snoc. simpl. now rewrite Hnum.
  - simpl. now rewrite <- Hm.
Qed.

Lemma add_turn_verdict_is_for_new_turn_witness :
  goal_set two_turn_engine /\
  check_interval two_turn_engine <> 0 /\
  DriftMetrics.turn_number
    (verdict_of (V := raising_vectorizer)
       (with_turn two_turn_engine "and" "of" 2) "the") =
    Z.of_nat (length (conversation_history two_turn_engine)) + 1 /\
  DriftMetrics.turn_number
    (verdict_of (V := raising_vectorizer)
       (with_turn two_turn_engine "and" "of" 2) "the")
    mod check_interval two_turn_engine = 0 /\
  (ConversationTurn.turn_number <$> last (conversation_history used_engine)) =
    Some (DriftMetrics.turn_number
            (verdict_of (V := raising_vectorizer)
               (with_turn two_turn_engine "and" "of" 2) "the")) /\
  drift_history used_engine =
    drift_history two_turn_engine ++
    [verdict_of (V := raising_vectorizer)
       (with_turn two_turn_engine "and" "of" 2) "the"].
Proof.
  apply (add_turn_verdict_is_for_new_turn raising_vectorizer
           two_turn_engine used_engine "and" "of" 2).
  reflexivity.
Defined.

(** X9: [all_texts] is kept in step with the calls: after
    [set_north_star g] and any loop of [add_turn] calls it holds the goal
    followed by one text per call, [user + " " + assistant], in order,
    whether the calls returned or raised. *)
Theorem all_texts_tracks_every_turn :
  forall (V : Vectorizer) (self : t) (g : string)
         (turns : list (string * string * Z)),
    all_texts (snd (add_turns (set_north_star self g) turns)) =
      g :: texts_of turns.
Proof.
  intros V self g turns.
  assert (H : forall self0 : t,
             all_texts (snd (add_turns self0 turns)) =
             all_texts self0 ++ texts_of turns).
  { induction turns as [|[[u a] now] rest IH]; intros self0.
    - simpl. now rewrite app_nil_r.
    - rewrite add_turns_cons. cbn [snd]. rewrite IH, add_turn_all_texts.
      rewrite <- app_assoc. reflexivity. }
  rewrite H. reflexivity.
Qed.

(** * Further properties of the lexical fallback *)

Lemma lower_char_idempotent (c : ascii) :
  PyStr.lower_char (PyStr.lower_char c) = PyStr.lower_char c.
Proof. destruct c as [[] [] [] [] [] [] [] []]; reflexivity. Qed.

Lemma lower_idempotent (s : string) : PyStr.lower (PyStr.lower s) = PyStr.lower s.
Proof.
  induction s as [|c s IH]; simpl; [reflexivity|].
  now rewrite lower_char_idempotent, IH.
Qed.

Lemma lower_app (a b : string) :
  PyStr.lower (a +:+ b) = PyStr.lower a +:+ PyStr.lower b.
Proof.
  induction a as [|c a IH]; [reflexivity|].
  change (String c a +:+ b) with (String c (a +:+ b)).
  simpl. rewrite IH. reflexivity.
Qed.

(** Splitting across a white-space character splits the two sides. *)
Lemma split_go_app (a b : string) (c : ascii) :
  PyStr.isspace c = true ->
  forall cur : string,
    PyStr.split_go cur (a +:+ String c b) =
    PyStr.split_go cur a ++ PyStr.split b.
Proof.
  intros Hc. induction a as [|x a IH]; intros cur.
  - change ("" +:+ String c b) with (String c b). simpl. rewrite Hc.
    destruct cur; reflexivity.
  - change (String x a +:+ String c b) with (String x (a +:+ String c b)).
    simpl. destruct (PyStr.isspace x).
    + destruct cur; rewrite IH; reflexivity.
    + apply IH.
Qed.

Lemma word_set_space (a b : string) :
  word_set (a +:+ " " +:+ b) = word_set a ∪ word_set b.
Proof.
  unfold word_set. rewrite lower_app.
  change (PyStr.lower (" " +:+ b)) with (String " "%char (PyStr.lower b)).
  unfold PyStr.split at 1. rewrite split_go_app by reflexivity.
  apply list_to_set_app_L.
Qed.

Lemma word_set_empty : word_set "" = ∅.
Proof. reflexivity. Qed.

Lemma word_set_join (texts : list string) :
  word_set (PyStr.join " " texts) = ⋃ map word_set texts.
Proof.
  induction texts as [|x texts IH]; [reflexivity|].
  destruct texts as [|y texts].
  - simpl. now rewrite (right_id_L ∅ (∪)).
  - change (PyStr.join " " (x :: y :: texts))
      with (x +:+ " " +:+ PyStr.join " " (y :: texts)).
    rewrite word_set_space, IH. reflexivity.
Qed.

(** X10: the word set that the fallback takes from the state summary is
    the union of the word sets of the user and assistant messages of the
    last three turns (of all turns when there are fewer): no word of an
    older turn enters it, and no word of the window is lost. *)
Theorem summary_words_are_window_words :
  forall self : t, word_set (generate_state_summary self) = window_words self.
Proof.
  intros self. unfold generate_state_summary, window_words.
  rewrite word_set_join, map_map. f_equal.
  apply map_ext. intros turn. apply word_set_space.
Qed.

(** X11: the fallback score depends on the two word sets only: it is
    the same when the two texts are exchanged, when a text is replaced by
    its lower-case form, when two parts of a text joined by a space are
    exchanged, and when a text is repeated. *)
Theorem fallback_similarity_invariances :
  forall a b c : string,
    fallback_similarity a b = fallback_similarity b a /\
    fallback_similarity (PyStr.lower a) b = fallback_similarity a b /\
    fallback_similarity (a +:+ " " +:+ b) c =
      fallback_similarity (b +:+ " " +:+ a) c /\
    fallback_similarity (a +:+ " " +:+ a) c = fallback_similarity a c.
Proof.
  intros a b c. unfold fallback_similarity. repeat split.
  - now rewrite (comm_L (∪) (word_set a)), (comm_L (∩) (word_set a)).
  - unfold word_set at 1 3 5. rewrite lower_idempotent. reflexivity.
  - now rewrite !word_set_space, (comm_L (∪) (word_set a)).
  - now rewrite !word_set_space, (idemp_L (∪) (word_set a)).
Qed.

Lemma len_div_one_inv (i u : nat) :
  (0 < u)%nat -> (PyStr.len_div i u == 1)%Q -> i = u.
Proof.
  unfold PyStr.len_div, Qeq; simpl. intros Hu H.
  rewrite pos_of_nat_Z in H by exact Hu. lia.
Qed.

Lemma len_div_zero_inv (i u : nat) : (PyStr.len_div i u == 0)%Q -> i = 0%nat.
Proof. unfold PyStr.len_div, Qeq; simpl. lia. Qed.

Lemma inter_union_same (A B : gset string) : A ∩ B = A ∪ B -> A = B.
Proof.
  intros H. apply (anti_symm (⊆)).
  - transitivity (A ∪ B); [apply union_subseteq_l|].
    rewrite <- H. apply intersection_subseteq_r.
  - transitivity (A ∪ B); [apply union_subseteq_r|].
    rewrite <- H. apply intersection_subseteq_l.
Qed.

(** X12: the fallback score is 1 exactly when the two texts have the
    same word set and that set is not empty; it is 0 exactly when the two
    texts have no word in common. *)
Theorem fallback_similarity_extremes :
  forall a b : string,
    ((fallback_similarity a b == 1)%Q <->
     word_set a = word_set b /\ word_set a <> ∅) /\
    ((fallback_similarity a b == 0)%Q <->
     word_set a ∩ word_set b = ∅).
Proof.
  intros a b. unfold fallback_similarity.
  generalize (word_set a) (word_set b). clear a b. intros A B.
  destruct (Nat.ltb_spec 0 (size (A ∪ B))) as [Hu|Hu].
  - split; split.
    + intros H1. apply len_div_one_inv in H1; [|exact Hu].
      assert (HAB : A = B).
      { apply inter_union_same, set_subseteq_size_eq; [|lia].
        transitivity A;
          [apply intersection_subseteq_l|apply union_subseteq_l]. }
      split; [exact HAB|]. intros HA.
      rewrite <- HAB, (idemp_L (∪) A), HA, size_empty in Hu. lia.
    + intros [HAB HA]. rewrite <- HAB.
      pose proof (idemp_L (∪) A) as HU. pose proof (idemp_L (∩) A) as HI.
      rewrite HU, HI.
      apply len_div_same. rewrite <- HAB, (idemp_L (∪) A) in Hu. exact Hu.
    + intros H0. apply len_div_zero_inv in H0.
      now apply leibniz_equiv, size_empty_iff.
    + intros H0. rewrite H0, size_empty. reflexivity.
  - assert (HU : A ∪ B = ∅) by (apply leibniz_equiv, size_empty_iff; lia).
    assert (HA : A = ∅).
    { apply leibniz_equiv, equiv_empty. rewrite <- HU.
      apply union_subseteq_l. }
    split; split.
    + intros H. discriminate H.
    + intros [_ HnA]. contradiction.
    + intros _. rewrite HA. apply (left_absorb_L ∅ (∩)).
    + reflexivity.
Qed.

(** X13: the score of an evaluation depends on the goal and on the
    texts of the last three turns only: two initialized engines with the
    same goal whose histories end with three turns of the same messages
    get verdicts with the same similarity score, whatever the older
    turns, the turn numbers, the time stamps and the rest of the state;
    the state summary is the three texts joined by spaces. *)
Theorem score_depends_on_window_only :
  forall (V : Vectorizer) (self1 self2 : t) (north : string)
         (older1 older2 window1 window2 : list ConversationTurn.t),
    north_star self1 = Some north -> north_star self2 = Some north ->
    north <> "" ->
    length window1 = 3%nat ->
    map turn_text window1 = map turn_text window2 ->
    conversation_history self1 = older1 ++ window1 ->
    conversation_history self2 = older2 ++ window2 ->
    generate_state_summary self1 = PyStr.join " " (map turn_text window1) /\
    exists (m1 m2 : DriftMetrics.t) (self1' self2' : t),
      check_drift self1 = (Return m1, self1') /\
      check_drift self2 = (Return m2, self2') /\
      DriftMetrics.similarity_score m1 = DriftMetrics.similarity_score m2.
Proof.
  intros V self1 self2 north older1 older2 window1 window2
         Hn1 Hn2 Hne Hlen Htexts Hh1 Hh2.
  assert (Hlen2 : length window2 = 3%nat).
  { rewrite <- Hlen, <- (length_map turn_text window1), Htexts.
    symmetry. apply length_map. }
  assert (Hw : forall older window : list ConversationTurn.t,
             length window = 3%nat ->
             PyStr.last_n 3 (older ++ window) = window).
  { intros older window Hl. unfold PyStr.last_n.
    rewrite length_app, Hl.
    replace (length older + 3 - 3)%nat with (length older) by lia.
    apply drop_app_length. }
  assert (Hs1 : generate_state_summary self1 =
                PyStr.join " " (map turn_text window1)).
  { unfold generate_state_summary. now rewrite Hh1, Hw. }
  assert (Hs2 : generate_state_summary self2 =
                PyStr.join " " (map turn_text window1)).
  { unfold generate_state_summary. now rewrite Hh2, Hw, Htexts. }
  split; [exact Hs1|].
  exists (verdict_of self1 north), (verdict_of self2 north),
         (evaluated self1 north), (evaluated self2 north).
  split; [now apply check_drift_initialized|].
  split; [now apply check_drift_initialized|].
  unfold verdict_of; simpl. now rewrite Hs1, Hs2.
Qed.

(** * Properties of the request handlers *)

Section Service.

Context {V : Vectorizer} {J : Judge}.

Lemma add_conversation_turn_engine (st : Main.state) (u a : string) (now : Z) :
  Main.engine (snd (Endpoints.add_conversation_turn st u a now)) =
  snd (add_turn (Main.engine st) u a now).
Proof.
  unfold Endpoints.add_conversation_turn.
  destruct (add_turn (Main.engine st) u a now) as [[[m|]|e] engine];
    reflexivity.
Qed.

Lemma manual_drift_check_engine (st : Main.state) :
  Main.engine (snd (Endpoints.manual_drift_check st)) =
  snd (check_drift (Main.engine st)).
Proof.
  unfold Endpoints.manual_drift_check.
  destruct (check_drift (Main.engine st)) as [[m|e] engine]; reflexivity.
Qed.

Lemma served_engine (st : Main.state) (r : request) :
  Main.engine (served st r) =
    if is_reset r then __init__ (45 # 100)%Q 3
    else run (Main.engine st) (call_of r).
Proof.
  destruct r as [north|u a now| | |]; simpl.
  - reflexivity.
  - apply add_conversation_turn_engine.
  - apply manual_drift_check_engine.
  - reflexivity.
  - reflexivity.
Qed.

Lemma serve_snoc (st : Main.state) (requests : list request) (r : request) :
  serve st (requests ++ [r]) = served (serve st requests) r.
Proof. unfold serve. rewrite fold_left_app. reflexivity. Qed.

Lemma run_app (self : t) (calls1 calls2 : list call) :
  run self (calls1 ++ calls2) = run (run self calls1) calls2.
Proof. unfold run. apply fold_left_app. Qed.

Lemma serve_engine (requests : list request) :
  Main.engine (serve Main.startup requests) =
  run (__init__ (service_threshold requests) 3) (calls_since_reset requests).
Proof.
  induction requests as [|r requests IH] using rev_ind; [reflexivity|].
  rewrite serve_snoc, served_engine, IH.
  unfold service_threshold, calls_since_reset.
  rewrite existsb_app, fold_left_app. simpl.
  destruct (is_reset r) eqn:Hr.
  - rewrite orb_true_r. reflexivity.
  - rewrite orb_false_r, run_app. reflexivity.
Qed.

Lemma service_engine_config (requests : list request) :
  check_interval (Main.engine (serve Main.startup requests)) = 3 /\
  threshold (Main.engine (serve Main.startup requests)) =
    service_threshold requests.
Proof.
  rewrite serve_engine.
  destruct (configuration_and_interval_of_run
              (__init__ (service_threshold requests) 3)
              (calls_since_reset requests)) as [Ht Hk].
  split; assumption.
Qed.

End Service.

(** X14: at any moment the engine of the service is the one that the
    engine calls of the requests since the latest reset build from a new
    engine; its interval is always 3, and its threshold is 0.7 as long as
    no reset was requested and 0.45 from the first reset on. *)
Theorem service_engine_is_built_by_calls :
  forall (V : Vectorizer) (J : Judge) (requests : list request),
    let engine := Main.engine (serve Main.startup requests) in
    engine =
      run (__init__ (service_threshold requests) 3)
          (calls_since_reset requests) /\
    check_interval engine = 3 /\
    threshold engine = service_threshold requests.
Proof.
  intros V J requests engine. subst engine. rewrite serve_engine.
  split; [reflexivity|].
  rewrite <- serve_engine. apply service_engine_config.
Qed.

Lemma goal_is_set_spec (self : t) : goal_is_set self = true <-> goal_set self.
Proof.
  unfold goal_is_set, goal_set. split.
  - destruct (north_star self) as [[|c n]|]; try discriminate.
    intros _. exists (String c n). split; [reflexivity|discriminate].
  - intros (north & -> & Hne). destruct north; [contradiction|reflexivity].
Qed.

(** X15: what [POST /add-turn] answers, at any moment of the service.
    The turn is stored in every case.  When the number of the new turn is
    not a multiple of 3 the answer is 200 with an empty body; when it is,
    the answer is 200 with a drift response if the goal is set, and 500
    with the engine's [ValueError] if it is not. *)
Theorem add_turn_endpoint_answers :
  forall (V : Vectorizer) (J : Judge) (requests : list request)
         (u a : string) (now : Z),
    let st := serve Main.startup requests in
    let n := Z.of_nat (length (conversation_history (Main.engine st))) + 1 in
    let answer := fst (Endpoints.add_conversation_turn st u a now) in
    let st' := snd (Endpoints.add_conversation_turn st u a now) in
    conversation_history (Main.engine st') =
      conversation_history (Main.engine st) ++
      [{| ConversationTurn.turn_number := n;
          ConversationTurn.user_message := u;
          ConversationTurn.assistant_response := a;
          ConversationTurn.timestamp := now |}] /\
    answer =
      if n mod 3 =? 0 then
        if goal_is_set (Main.engine st) then
          Ok200 (Some (Endpoints.drift_response (Main.engine st')
                         (verdict_of (with_turn (Main.engine st) u a now)
                            (Endpoints.north_star_text (Main.engine st)))))
        else Http500 (EngineRaised (ValueError not_set_msg))
      else Ok200 None.
Proof.
  intros V J requests u a now st n answer st'.
  destruct (service_engine_config requests) as [Hk _].
  fold st in Hk.
  split.
  - subst st'. rewrite add_conversation_turn_engine, add_turn_history.
    reflexivity.
  - subst answer st'. unfold Endpoints.add_conversation_turn.
    destruct (goal_is_set (Main.engine st)) eqn:Hg.
    + apply goal_is_set_spec in Hg as (north & Hn & Hne).
      rewrite (add_turn_initialized _ north u a now Hn Hne)
        by (rewrite Hk; discriminate).
      rewrite Hk. fold n. destruct (n mod 3 =? 0); [|reflexivity].
      simpl. unfold Endpoints.north_star_text. rewrite Hn. reflexivity.
    + assert (Hng : ~ goal_set (Main.engine st)).
      { intros Hgs. apply goal_is_set_spec in Hgs. congruence. }
      rewrite add_turn_unfold, Hk. simpl (3 =? 0). cbv iota. fold n.
      destruct (n mod 3 =? 0); [|reflexivity].
      rewrite check_drift_not_initialized; [reflexivity|].
      exact Hng.
Qed.

(** X16: [GET /get-state] answers 500 exactly when no goal is stored,
    which is the case when the service starts and after every reset, and
    [GET /check-drift] then answers 500 as well and leaves the service
    as it is.  Once [POST /initialize] has stored a goal, [GET
    /get-state] answers 200 with that goal, [last_good_turn = 1], the
    number of stored turns, and the last five turns (all of them when
    there are fewer). *)
Theorem state_endpoint_needs_a_goal :
  forall (V : Vectorizer) (J : Judge) (st : Main.state) (goal : string),
    (Endpoints.get_conversation_state st = Http500 ValidationError <->
     north_star (Main.engine st) = None) /\
    Endpoints.get_conversation_state Main.startup = Http500 ValidationError /\
    Endpoints.get_conversation_state (Main.reset_conversation st) =
      Http500 ValidationError /\
    Endpoints.manual_drift_check (Main.reset_conversation st) =
      (Http500 (EngineRaised (ValueError not_set_msg)),
       Main.reset_conversation st) /\
    exists body : ConversationState.t,
      Endpoints.get_conversation_state
        (Main.initialize_conversation st goal) = Ok200 body /\
      ConversationState.north_star body = goal /\
      ConversationState.last_good_turn body = 1 /\
      ConversationState.total_turns body =
        Z.of_nat (length (conversation_history (Main.engine st))) /\
      ConversationState.drift_checks body =
        Z.of_nat (length (drift_history (Main.engine st))) /\
      ConversationState.recent_turns body =
        PyStr.last_n 5
          (Summary.conversation_history
             (get_conversation_summary (Main.engine st))) /\
      length (ConversationState.recent_turns body) =
        Nat.min 5 (length (conversation_history (Main.engine st))).
Proof.
  intros V J st goal. split; [|split; [|split; [|split]]];
    try reflexivity.
  - unfold Endpoints.get_conversation_state. simpl.
    destruct (north_star (Main.engine st)); split;
      (discriminate || reflexivity).
  - eexists. split; [reflexivity|]. do 5 (split; [reflexivity|]).
    cbn [ConversationState.recent_turns].
    unfold PyStr.last_n, get_conversation_summary.
    cbn [Summary.conversation_history Main.initialize_conversation
         Main.engine set_north_star conversation_history].
    rewrite length_skipn, length_map. lia.
Qed.

(** Where a drift response comes from: the engine evaluated with a goal
    in place, and the response was built from the verdict. *)
Lemma ok_response_origin (V : Vectorizer) (J : Judge) (st st' : Main.state)
    (r : DriftResponse.t) :
  (Endpoints.manual_drift_check st = (Ok200 r, st') \/
   exists u a now,
     Endpoints.add_conversation_turn st u a now = (Ok200 (Some r), st')) ->
  exists self0 north,
    north_star self0 = Some north /\ north <> "" /\
    north_star (Main.engine st) = Some north /\
    threshold self0 = threshold (Main.engine st) /\
    Main.engine st' = evaluated self0 north /\
    r = Endpoints.drift_response (evaluated self0 north)
          (verdict_of self0 north).
Proof.
  intros Hr.
  destruct Hr as [Hc | (u & a & now & Ha)].
  - unfold Endpoints.manual_drift_check in Hc.
    destruct (check_drift (Main.engine st)) as [[m|e] engine] eqn:Hcd;
      [|discriminate].
    injection Hc as <- <-.
    destruct (check_drift_verdict _ _ _ Hcd) as (north & Hn & _).
    assert (Hne : north <> "").
    { intros ->. unfold check_drift in Hcd. rewrite Hn in Hcd.
      discriminate. }
    rewrite (check_drift_initialized _ north Hn Hne) in Hcd.
    injection Hcd as <- <-.
    exists (Main.engine st), north. repeat split; assumption.
  - unfold Endpoints.add_conversation_turn in Ha.
    destruct (add_turn (Main.engine st) u a now) as [[[m|]|e] engine]
      eqn:Hat; try discriminate.
    injection Ha as <- <-.
    destruct (add_turn_verdict _ _ _ _ _ _ Hat) as (self1 & Hcd).
    rewrite add_turn_unfold in Hat.
    destruct (check_interval (Main.engine st) =? 0); [discriminate|].
    destruct (_ mod _ =? 0); [|discriminate].
    rewrite Hcd in Hat. injection Hat as <-.
    destruct (check_drift_verdict _ _ _ Hcd) as (north & Hn & _).
    assert (Hne : north <> "").
    { intros ->. unfold check_drift in Hcd. rewrite Hn in Hcd.
      discriminate. }
    rewrite (check_drift_initialized _ north Hn Hne) in Hcd.
    injection Hcd as Hm Hs. subst m self1.
    exists (with_turn (Main.engine st) u a now), north.
    repeat split; assumption.
Qed.

(** X17: a drift response that [GET /check-drift] or [POST /add-turn]
    returns copies the verdict of the engine, and it carries a
    supervisor analysis and an intervention prompt exactly when the
    verdict is drifting, that is when the score is below the threshold of
    the engine. *)
Theorem drift_response_matches_verdict :
  forall (V : Vectorizer) (J : Judge) (st st' : Main.state)
         (r : DriftResponse.t),
    (Endpoints.manual_drift_check st = (Ok200 r, st') \/
     exists u a now,
       Endpoints.add_conversation_turn st u a now = (Ok200 (Some r), st')) ->
    last (drift_history (Main.engine st')) =
      Some {| DriftMetrics.turn_number := DriftResponse.turn_number r;
              DriftMetrics.similarity_score := DriftResponse.similarity_score r;
              DriftMetrics.is_drifting := DriftResponse.is_drifting r;
              DriftMetrics.last_good_turn := DriftResponse.last_good_turn r;
              DriftMetrics.drift_reason := None |} /\
    DriftResponse.turn_number r =
      Z.of_nat (length (conversation_history (Main.engine st'))) /\
    DriftResponse.last_good_turn r = last_good_turn (Main.engine st') /\
    (DriftResponse.is_drifting r = true <->
     (DriftResponse.similarity_score r < threshold (Main.engine st))%Q) /\
    (is_Some (DriftResponse.supervisor_analysis r) <->
     DriftResponse.is_drifting r = true) /\
    (is_Some (DriftResponse.intervention_prompt r) <->
     DriftResponse.is_drifting r = true).
Proof.
  intros V J st st' r Hr.
  destruct (ok_response_origin V J st st' r Hr)
    as (self0 & north & Hn & Hne & _ & Hth & He & ->).
  rewrite He, <- Hth. clear Hr He.
  pose proof (float_lt_iff (similarity north (generate_state_summary self0))
                (threshold self0)) as Hiff.
  unfold Endpoints.drift_response, evaluated, verdict_of in *.
  cbn [drift_history conversation_history last_good_turn
       DriftMetrics.is_drifting DriftMetrics.turn_number
       DriftMetrics.similarity_score DriftMetrics.last_good_turn].
  rewrite last_snoc.
  destruct (PyStr.float_lt _ _);
    cbn [DriftResponse.turn_number DriftResponse.similarity_score
         DriftResponse.is_drifting DriftResponse.last_good_turn
         DriftResponse.supervisor_analysis DriftResponse.intervention_prompt];
    (split; [reflexivity|]); (split; [reflexivity|]);
    (split; [reflexivity|]); (split; [exact Hiff|]);
    split; split; try discriminate; try reflexivity; eauto;
    intros [x Hx]; discriminate.
Qed.

(** X18: when the supervisor's request fails, the analysis in a drift
    response is the local fallback: confidence ["low"], the fixed
    distraction text, a realignment that quotes the goal, and
    [pursuing_goal] true exactly when the score is at least 0.45.  So
    with an engine threshold of at most 0.45 a drifting response never
    says the goal is pursued, while with a higher threshold it does for
    every score from 0.45 up to the threshold. *)
Theorem supervisor_fallback_in_responses :
  forall (V : Vectorizer) (st st' : Main.state) (r : DriftResponse.t)
         (d : SupervisorData.t),
    (Endpoints.manual_drift_check (J := failing_judge) st = (Ok200 r, st') \/
     exists u a now,
       Endpoints.add_conversation_turn (J := failing_judge) st u a now =
         (Ok200 (Some r), st')) ->
    DriftResponse.supervisor_analysis r = Some d ->
    SupervisorData.confidence d = "low" /\
    SupervisorData.distraction d = Some "Unable to analyze (API error)" /\
    (exists north,
       north_star (Main.engine st) = Some north /\
       SupervisorData.realignment d = "Refocus on: " +:+ north) /\
    (SupervisorData.pursuing_goal d = true <->
     (45 # 100 <= DriftResponse.similarity_score r)%Q) /\
    (SupervisorData.pursuing_goal d = true ->
     (45 # 100 <= DriftResponse.similarity_score r
                < threshold (Main.engine st))%Q) /\
    ((threshold (Main.engine st) <= 45 # 100)%Q ->
     SupervisorData.pursuing_goal d = false).
Proof.
  intros V st st' r d Hr Hd.
  destruct (ok_response_origin V failing_judge st st' r Hr)
    as (self0 & north & Hn & Hne & Hg & Hth & He & ->).
  rewrite Hg, <- Hth. clear Hr He Hg Hth.
  pose proof (float_lt_iff (similarity north (generate_state_summary self0))
                (threshold self0)) as Hiff.
  unfold Endpoints.drift_response, evaluated, verdict_of in *.
  cbn [DriftMetrics.is_drifting DriftMetrics.similarity_score] in *.
  destruct (PyStr.float_lt _ _) eqn:Hlt;
    cbn [DriftResponse.supervisor_analysis DriftResponse.similarity_score]
      in *; [|discriminate].
  injection Hd as <-.
  unfold Endpoints.north_star_text, LLMSupervisor.analyze_drift,
    LLMSupervisor.fallback_analysis, LLMSupervisor.float_ge.
  cbn [north_star judged failing_judge SupervisorData.confidence
       SupervisorData.distraction SupervisorData.realignment
       SupervisorData.pursuing_goal SupervisorAnalysis.is_pursuing_goal
       SupervisorAnalysis.distraction SupervisorAnalysis.confidence
       SupervisorAnalysis.realignment_instruction].
  rewrite Hn.
  assert (Hlt' : (similarity north (generate_state_summary self0)
                  < threshold self0)%Q) by (now apply Hiff).
  split; [reflexivity|]. split; [reflexivity|].
  split; [exists north; split; reflexivity|].
  split; [apply Qle_bool_iff|].
  split.
  - intros Hp. apply Qle_bool_iff in Hp. split; assumption.
  - intros Hth. destruct (Qle_bool _ _) eqn:Hle; [|reflexivity].
    apply Qle_bool_iff in Hle. exfalso.
    apply (Qlt_not_le _ _ Hlt'). now apply (Qle_trans _ (45 # 100)).
Qed.

(** In the service as started (threshold 0.7), a score of 0.5 gives a
    drifting response whose fallback analysis says the goal is pursued. *)
Example half_service_response :
  fst (Endpoints.manual_drift_check (V := raising_vectorizer)
         (J := failing_judge) half_service) =
  Ok200
    {| DriftResponse.turn_number := 1;
       DriftResponse.similarity_score := (1 # 2)%Q;
       DriftResponse.is_drifting := true;
       DriftResponse.last_good_turn := 1;
       DriftResponse.supervisor_analysis :=
         Some {| SupervisorData.pursuing_goal := true;
                 SupervisorData.distraction :=
                   Some "Unable to analyze (API error)";
                 SupervisorData.realignment := "Refocus on: the";
                 SupervisorData.confidence := "low" |};
       DriftResponse.intervention_prompt :=
         Some (LLMSupervisor.generate_intervention_prompt "the"
                 (LLMSupervisor.fallback_analysis "the" (1 # 2)%Q)) |}.
Proof. vm_compute. reflexivity. Qed.

Lemma drift_response_matches_verdict_witness :
  DriftResponse.is_drifting
    (Endpoints.drift_response (J := failing_judge)
       (evaluated (V := raising_vectorizer) (Main.engine half_service) "the")
       (verdict_of (V := raising_vectorizer) (Main.engine half_service)
          "the")) = true <->
  (DriftResponse.similarity_score
     (Endpoints.drift_response (J := failing_judge)
        (evaluated (V := raising_vectorizer) (Main.engine half_service) "the")
        (verdict_of (V := raising_vectorizer) (Main.engine half_service)
           "the"))
   < threshold (Main.engine half_service))%Q.
Proof.
  apply (drift_response_matches_verdict raising_vectorizer failing_judge
           half_service
           {| Main.engine :=
                evaluated (V := raising_vectorizer)
                  (Main.engine half_service) "the" |}).
  left. reflexivity.
Defined.

Lemma supervisor_fallback_in_responses_witness :
  (45 # 100 <=
   DriftResponse.similarity_score
     (Endpoints.drift_response (J := failing_judge)
        (evaluated (V := raising_vectorizer) (Main.engine half_service) "the")
        (verdict_of (V := raising_vectorizer) (Main.engine half_service)
           "the"))
   < threshold (Main.engine half_service))%Q.
Proof.
  apply (supervisor_fallback_in_responses raising_vectorizer half_service
           {| Main.engine :=
                evaluated (V := raising_vectorizer)
                  (Main.engine half_service) "the" |}
           (Endpoints.drift_response (J := failing_judge)
              (evaluated (V := raising_vectorizer)
                 (Main.engine half_service) "the")
              (verdict_of (V := raising_vectorizer)
                 (Main.engine half_service) "the"))
           {| SupervisorData.pursuing_goal := true;
              SupervisorData.distraction :=
                Some "Unable to analyze (API error)";
              SupervisorData.realignment := "Refocus on: the";
              SupervisorData.confidence := "low" |}).
  - left. reflexivity.
  - reflexivity.
  - reflexivity.
Defined.

Lemma score_depends_on_window_only_witness :
  generate_state_summary used_engine =
    PyStr.join " " (map turn_text (conversation_history used_engine)) /\
  exists (m1 m2 : DriftMetrics.t) (self1' self2' : t),
    check_drift (V := raising_vectorizer) used_engine = (Return m1, self1') /\
    check_drift (V := raising_vectorizer) longer_engine = (Return m2, self2') /\
    DriftMetrics.similarity_score m1 = DriftMetrics.similarity_score m2.
Proof.
  apply (score_depends_on_window_only raising_vectorizer
           used_engine longer_engine "the"
           [] (firstn 1 (conversation_history longer_engine))
           (conversation_history used_engine)
           (skipn 1 (conversation_history longer_engine))).
  - reflexivity.
  - reflexivity.
  - discriminate.
  - reflexivity.
  - reflexivity.
  - reflexivity.
  - reflexivity.
Defined.

Lemma fallback_similarity_extremes_witness :
  (fallback_similarity "The cat" "cat  THE cat" == 1)%Q /\
  (fallback_similarity "refund order" "login email" == 0)%Q.
Proof.
  split.
  - apply (fallback_similarity_extremes "The cat" "cat  THE cat").
    split; [vm_compute; reflexivity|vm_compute; discriminate].
  - apply (fallback_similarity_extremes "refund order" "login email").
    vm_compute. reflexivity.
Defined.

(** * Properties of the demo loop *)

Section DemoLoop.

Context {V : Vectorizer} {J : Judge} {A : Agent}.

Lemma demo_check_drift_initialized (st : Main.state) (north u a : string)
    (now : Z) :
  north_star (Main.engine st) = Some north -> north <> "" ->
  check_interval (Main.engine st) = 3 ->
  exists (data : option DriftResponse.t) (engine : t),
    Demo.check_drift st u a now = (data, {| Main.engine := engine |}) /\
    conversation_history engine =
      conversation_history (with_turn (Main.engine st) u a now) /\
    north_star engine = north_star (Main.engine st) /\
    check_interval engine = 3 /\
    threshold engine = threshold (Main.engine st) /\
    (is_Some data <->
     (Z.of_nat (length (conversation_history (Main.engine st))) + 1)
       mod 3 = 0).
Proof.
  intros Hn Hne Hk. unfold Demo.check_drift, Endpoints.add_conversation_turn.
  rewrite (add_turn_initialized _ north u a now Hn Hne)
    by (rewrite Hk; discriminate).
  rewrite Hk.
  destruct (Z.eqb_spec
              ((Z.of_nat (length (conversation_history (Main.engine st))) + 1)
                 mod 3) 0) as [H0|H0].
  - eexists _, _. split; [reflexivity|].
    repeat split; try assumption; eauto.
  - eexists _, _. split; [reflexivity|].
    repeat split; try assumption.
    + intros [x Hx]; discriminate.
    + intros; contradiction.
Qed.

(** How one pass through the loop body moves the three drift flags. *)
Lemma flags_after_iteration (w : Demo.world) (data : option DriftResponse.t)
    (detected : bool) (started : option Z) :
  demo_phase w ->
  (is_Some data <-> Demo.turn w mod 3 = 0) ->
  match data with
  | Some data0 =>
      if DriftResponse.is_drifting data0 then
        if negb (Demo.drift_detected w)
        then (true, Some (Demo.turn w))
        else (Demo.drift_detected w, Demo.drift_started_turn w)
      else
        if Demo.drift_detected w &&
           negb (if Demo.should_intervene w then true
                 else Demo.intervention_applied w)
        then (false, None)
        else (Demo.drift_detected w, Demo.drift_started_turn w)
  | None => (Demo.drift_detected w, Demo.drift_started_turn w)
  end = (detected, started) ->
  phase_of detected started
    (if Demo.should_intervene w then true else Demo.intervention_applied w)
    (Demo.turn w + 1) /\
  (Demo.drift_detected w = true ->
   detected = true /\ started = Demo.drift_started_turn w) /\
  (Demo.intervention_applied w = true ->
   (if Demo.should_intervene w then true else Demo.intervention_applied w)
   = true).
Proof.
  unfold demo_phase, phase_of, Demo.should_intervene.
  intros [(Hd & Hs & Ha) | [(Hd & Ha & d & Hs & Hd3 & Hdt)
                           | (Hd & Ha & d & Hs & Hd3 & Hdt)]] Hdata;
    rewrite Hd, Ha, ?Hs; simpl.
  - destruct data as [data|]; [destruct (DriftResponse.is_drifting data)|];
      intros Heq; injection Heq as <- <-;
      (split; [|split; intros; congruence]).
    + right; left. repeat split. exists (Demo.turn w).
      split; [reflexivity|]. split; [apply Hdata; eauto|lia].
    + left. repeat split; assumption.
    + left. repeat split; assumption.
  - assert (Hnone : data = None).
    { destruct data as [data|]; [|reflexivity]. exfalso.
      assert (H0 : Demo.turn w mod 3 = 0) by (apply Hdata; eauto).
      clear - H0 Hd3 Hdt. Z.div_mod_to_equations. lia. }
    subst data. intros Heq; injection Heq as <- <-.
    split; [|split; [intros _; split; reflexivity|intros; congruence]].
    destruct (Z.leb_spec 2 (Demo.turn w - d)) as [H2|H2].
    + right; right. repeat split. exists d. repeat split; try assumption; lia.
    + right; left. repeat split. exists d. repeat split; try assumption; lia.
  - assert (Heq' : forall x : bool * option Z, x = (true, Some d) ->
                   x = (detected, started) ->
                   detected = true /\ started = Some d)
      by (intros x -> Hx; injection Hx as <- <-; split; reflexivity).
    intros Heq.
    assert (Heq2 : detected = true /\ started = Some d).
    { eapply Heq'; [|exact Heq].
      destruct data as [data|]; [destruct (DriftResponse.is_drifting data)|];
        reflexivity. }
    destruct Heq2 as [-> ->].
    split; [|split; [intros _; split; reflexivity|intros _; reflexivity]].
    right; right. repeat split. exists d. repeat split; try assumption; lia.
Qed.

(** One pass through the loop body, from a world where the invariant
    holds. *)
Lemma iteration_keeps_invariant (w w' : Demo.world) (u : string) (now : Z)
    (f : Demo.flow) :
  demo_invariant w ->
  Demo.iteration w u now = (f, w') ->
  demo_synced w' /\
  (f = Demo.Continue -> demo_invariant w') /\
  (Demo.drift_detected w = true ->
   Demo.drift_detected w' = true /\
   Demo.drift_started_turn w' = Demo.drift_started_turn w) /\
  (Demo.intervention_applied w = true -> Demo.intervention_applied w' = true).
Proof.
  intros (Hsync & Hturn & Hgoal & Hphase) Hit.
  pose proof Hsync as (Hh & Hn & Hk & Hth).
  unfold Demo.iteration in Hit.
  destruct (existsb _ _).
  { injection Hit as <- <-. split; [exact Hsync|]. split; [discriminate|].
    split; [intros; split; [assumption|reflexivity]|intros; assumption]. }
  destruct (String.eqb_spec u "") as [|Hu].
  { injection Hit as <- <-. split; [exact Hsync|].
    split; [intros _; exact (conj Hsync (conj Hturn (conj Hgoal Hphase)))|].
    split; [intros; split; [assumption|reflexivity]|intros; assumption]. }
  set (backend1 := if Demo.turn w =? 1
                   then Main.initialize_conversation (Demo.backend w) u
                   else Demo.backend w) in *.
  set (north1 := if Demo.turn w =? 1 then Some u else Demo.north_star w) in *.
  assert (Hb1 : exists north,
             north_star (Main.engine backend1) = Some north /\ north <> "" /\
             north1 = Some north /\
             check_interval (Main.engine backend1) = 3 /\
             threshold (Main.engine backend1) = (45 # 100)%Q /\
             conversation_history (Main.engine backend1) =
               conversation_history (Main.engine (Demo.backend w))).
  { subst backend1 north1. destruct (Z.eqb_spec (Demo.turn w) 1) as [H1|H1].
    - exists u. repeat split; assumption.
    - destruct Hgoal as (north & Hg & Hne); [lia|].
      exists north. repeat split; try assumption. congruence. }
  destruct Hb1 as (north & Hn1 & Hne & Hnorth1 & Hk1 & Hth1 & Hh1).
  set (agent_msg := generate_agent_response north1
                      (Demo.conversation_history w) u
                      (Demo.should_intervene w)) in *.
  destruct (demo_check_drift_initialized backend1 north u agent_msg now
              Hn1 Hne Hk1)
    as (data & engine2 & Hcd & Hh2 & Hn2 & Hk2 & Hth2 & Hdata).
  rewrite Hcd in Hit. rewrite Hh1 in Hdata.
  assert (Hlen : Z.of_nat (length (conversation_history
                                     (Main.engine (Demo.backend w)))) + 1 =
                 Demo.turn w).
  { rewrite Hturn, <- Hh, length_map. reflexivity. }
  rewrite Hlen in Hdata.
  match type of Hit with
  | context [let (_, _) := ?flags in _] =>
      destruct flags as [detected started] eqn:Hflags
  end.
  destruct (flags_after_iteration w data detected started Hphase Hdata Hflags)
    as (Hphase' & Hdet & Happ).
  injection Hit as <- <-. simpl.
  assert (Hsync' : forall t : Z,
             demo_synced
               {| Demo.conversation_history :=
                    Demo.conversation_history w ++ [(u, agent_msg)];
                  Demo.north_star := north1;
                  Demo.drift_detected := detected;
                  Demo.drift_started_turn := started;
                  Demo.intervention_applied :=
                    if Demo.should_intervene w then true
                    else Demo.intervention_applied w;
                  Demo.turn := t;
                  Demo.backend := {| Main.engine := engine2 |} |}).
  { intros. unfold demo_synced. simpl.
    rewrite Hh2, Hn2, Hn1, Hth2, Hth1. simpl.
    rewrite Hh1, map_app, Hh. simpl.
    split; [reflexivity|]. split; [congruence|]. split; [assumption|].
    reflexivity. }
  split; [apply Hsync'|].
  split; [|split; assumption].
  intros Hf. destruct (Demo.natural_ending u agent_msg); [discriminate|].
  split; [apply Hsync'|]. simpl.
  split; [rewrite length_app; simpl; lia|].
  split; [intros _; exists north; split; [congruence|assumption]|].
  exact Hphase'.
Qed.

Lemma start_invariant (st : Main.state) : demo_invariant (Demo.start st).
Proof.
  unfold demo_invariant, demo_synced, demo_phase, phase_of. simpl.
  repeat split; try reflexivity; [lia|]. left. repeat split.
Qed.

Lemma loop_keeps_invariant (lines : list (string * Z)) :
  forall w : Demo.world,
    demo_invariant w ->
    demo_synced (snd (Demo.loop w lines)) /\
    (fst (Demo.loop w lines) = Demo.Continue ->
     demo_invariant (snd (Demo.loop w lines))) /\
    (Demo.drift_detected w = true ->
     Demo.drift_detected (snd (Demo.loop w lines)) = true /\
     Demo.drift_started_turn (snd (Demo.loop w lines)) =
       Demo.drift_started_turn w) /\
    (Demo.intervention_applied w = true ->
     Demo.intervention_applied (snd (Demo.loop w lines)) = true).
Proof.
  induction lines as [|[u now] rest IH]; intros w Hinv.
  - simpl. destruct Hinv as (Hsync & Hrest).
    split; [exact Hsync|]. split; [intros _; exact (conj Hsync Hrest)|].
    split; [intros; split; [assumption|reflexivity]|intros; assumption].
  - simpl. destruct (Demo.iteration w u now) as [f w1] eqn:Hit.
    destruct (iteration_keeps_invariant w w1 u now f Hinv Hit)
      as (Hsync1 & Hinv1 & Hdet1 & Happ1).
    destruct f.
    + destruct (IH w1 (Hinv1 eq_refl)) as (Hsync2 & Hinv2 & Hdet2 & Happ2).
      split; [exact Hsync2|]. split; [exact Hinv2|]. split.
      * intros Hd. destruct (Hdet1 Hd) as [Hd1 Hs1].
        destruct (Hdet2 Hd1) as [Hd2 Hs2]. split; congruence.
      * intros Ha. apply Happ2, Happ1, Ha.
    + simpl. split; [exact Hsync1|]. split; [discriminate|].
      split; assumption.
Qed.

Lemma loop_app (lines1 lines2 : list (string * Z)) : forall w : Demo.world,
  Demo.loop w (lines1 ++ lines2) =
    match Demo.loop w lines1 with
    | (Demo.Continue, w') => Demo.loop w' lines2
    | (Demo.Break, w') => (Demo.Break, w')
    end.
Proof.
  induction lines1 as [|[u now] rest IH]; intros w; simpl; [reflexivity|].
  destruct (Demo.iteration w u now) as [[] w1]; [apply IH|reflexivity].
Qed.

End DemoLoop.

(** X19: however the demo runs, its transcript holds the same messages,
    in the same order, as the history of its backend, and its goal is the
    goal of the backend; since the demo resets the backend before the
    first line, that backend always works with interval 3 and threshold
    0.45. *)
Theorem demo_transcript_matches_backend :
  forall (V : Vectorizer) (J : Judge) (A : Agent) (st : Main.state)
         (lines : list (string * Z)),
    demo_synced (snd (Demo.loop (Demo.start st) lines)).
Proof.
  intros V J A st lines.
  destruct (loop_keeps_invariant lines (Demo.start st) (start_invariant st))
    as (Hsync & _).
  exact Hsync.
Qed.

(** X20: in a run of the demo, once drift is detected the flag stays
    set and the turn of first detection stays recorded for the rest of
    the run, whatever verdicts follow (the branch that clears the flag
    never fires, because the next verdict comes three turns later, after
    the intervention); and once the intervention is applied it stays
    applied. *)
Theorem demo_flags_are_never_cleared :
  forall (V : Vectorizer) (J : Judge) (A : Agent) (st : Main.state)
         (lines more : list (string * Z)),
    let w := snd (Demo.loop (Demo.start st) lines) in
    let w' := snd (Demo.loop (Demo.start st) (lines ++ more)) in
    (Demo.drift_detected w = true ->
     Demo.drift_detected w' = true /\
     Demo.drift_started_turn w' = Demo.drift_started_turn w) /\
    (Demo.intervention_applied w = true ->
     Demo.intervention_applied w' = true).
Proof.
  intros V J A st lines more w w'. subst w w'. rewrite loop_app.
  destruct (loop_keeps_invariant lines (Demo.start st) (start_invariant st))
    as (_ & Hinv & _).
  destruct (Demo.loop (Demo.start st) lines) as [[] w1]; simpl in *.
  - destruct (loop_keeps_invariant more w1 (Hinv eq_refl))
      as (_ & _ & Hdet & Happ).
    split; assumption.
  - split; [intros; split; [assumption|reflexivity]|intros; assumption].
Qed.

(** X21: whenever the loop of the demo is about to read a line and the
    test for an intervention holds, drift was first detected exactly two
    turns before, at a turn whose number is a multiple of 3, and no
    intervention was applied yet; and an applied intervention always
    comes with a detected drift. *)
Theorem demo_intervenes_two_turns_after_detection :
  forall (V : Vectorizer) (J : Judge) (A : Agent) (st : Main.state)
         (lines : list (string * Z)),
    let w := snd (Demo.loop (Demo.start st) lines) in
    fst (Demo.loop (Demo.start st) lines) = Demo.Continue ->
    (Demo.should_intervene w = true ->
     Demo.drift_started_turn w = Some (Demo.turn w - 2) /\
     (Demo.turn w - 2) mod 3 = 0 /\
     Demo.intervention_applied w = false) /\
    (Demo.intervention_applied w = true -> Demo.drift_detected w = true).
Proof.
  intros V J A st lines w Hf.
  destruct (loop_keeps_invariant lines (Demo.start st) (start_invariant st))
    as (_ & Hinv & _).
  destruct (Hinv Hf) as (_ & _ & _ & Hphase). fold w in Hphase.
  unfold demo_phase, phase_of in Hphase. unfold Demo.should_intervene.
  destruct Hphase as [(Hd & Hs & Ha) | [(Hd & Ha & d & Hs & Hd3 & Hdt)
                                       | (Hd & Ha & d & Hs & Hd3 & Hdt)]];
    rewrite Hd, Ha, ?Hs; simpl; split; try discriminate; try reflexivity.
  intros H2. apply Z.leb_le in H2.
  assert (Hd2 : d = Demo.turn w - 2) by lia. subst d.
  split; [reflexivity|]. split; [assumption|reflexivity].
Qed.

(** A run of the demo with an agent that always answers ["of"]: drift is
    detected at turn 3, the intervention is decided at turn 5, and the
    on-track verdict of turn 6 leaves the drift flag set. *)
Example demo_run :
  let run lines :=
    snd (Demo.loop (V := raising_vectorizer) (J := failing_judge)
           (A := constant_agent "of") (Demo.start Main.startup) lines) in
  (Demo.drift_detected (run drifting_lines),
   Demo.drift_started_turn (run drifting_lines),
   Demo.turn (run drifting_lines)) = (true, Some 3, 4) /\
  Demo.should_intervene (run (drifting_lines ++ [("the", 3)])) = true /\
  (DriftMetrics.is_drifting <$>
     last (drift_history
             (Main.engine
                (Demo.backend (run (drifting_lines ++ returning_lines))))))
    = Some false /\
  (Demo.drift_detected (run (drifting_lines ++ returning_lines)),
   Demo.intervention_applied (run (drifting_lines ++ returning_lines)))
    = (true, true).
Proof. vm_compute. repeat split. Qed.

Lemma demo_flags_are_never_cleared_witness :
  Demo.drift_detected
    (snd (Demo.loop (V := raising_vectorizer) (J := failing_judge)
            (A := constant_agent "of") (Demo.start Main.startup)
            (drifting_lines ++ returning_lines))) = true /\
  Demo.drift_started_turn
    (snd (Demo.loop (V := raising_vectorizer) (J := failing_judge)
            (A := constant_agent "of") (Demo.start Main.startup)
            (drifting_lines ++ returning_lines))) =
  Demo.drift_started_turn
    (snd (Demo.loop (V := raising_vectorizer) (J := failing_judge)
            (A := constant_agent "of") (Demo.start Main.startup)
            drifting_lines)).
Proof.
  apply (demo_flags_are_never_cleared raising_vectorizer failing_judge
           (constant_agent "of") Main.startup drifting_lines returning_lines).
  reflexivity.
Defined.

Lemma demo_intervenes_two_turns_after_detection_witness :
  Demo.drift_started_turn
    (snd (Demo.loop (V := raising_vectorizer) (J := failing_judge)
            (A := constant_agent "of") (Demo.start Main.startup)
            (drifting_lines ++ [("the", 3)]))) =
    Some (Demo.turn
            (snd (Demo.loop (V := raising_vectorizer) (J := failing_judge)
                    (A := constant_agent "of") (Demo.start Main.startup)
                    (drifting_lines ++ [("the", 3)]))) - 2) /\
  (Demo.turn
     (snd (Demo.loop (V := raising_vectorizer) (J := failing_judge)
             (A := constant_agent "of") (Demo.start Main.startup)
             (drifting_lines ++ [("the", 3)]))) - 2) mod 3 = 0 /\
  Demo.intervention_applied
    (snd (Demo.loop (V := raising_vectorizer) (J := failing_judge)
            (A := constant_agent "of") (Demo.start Main.startup)
            (drifting_lines ++ [("the", 3)]))) = false.
Proof.
  apply (demo_intervenes_two_turns_after_detection raising_vectorizer
           failing_judge (constant_agent "of") Main.startup
           (drifting_lines ++ [("the", 3)])).
  - reflexivity.
  - reflexivity.
Defined.

(** X22: the sign of the interval does not matter to the trigger: on an
    initialized engine with any interval other than 0, negative ones
    included, [add_turn] returns, and it returns a verdict exactly when
    the interval divides the number of the new turn. *)
Theorem add_turn_trigger_for_any_interval :
  forall (V : Vectorizer) (self : t) (u a : string) (now : Z),
    goal_set self -> check_interval self <> 0 ->
    exists (v : option DriftMetrics.t) (self' : t),
      add_turn self u a now = (Return v, self') /\
      (is_Some v <->
       (check_interval self |
        Z.of_nat (length (conversation_history self)) + 1)).
Proof.
  intros V self u a now (north & Hn & Hne) Hk.
  rewrite (add_turn_initialized self north u a now Hn Hne Hk).
  destruct (Z.eqb_spec ((Z.of_nat (length (conversation_history self)) + 1)
                          mod check_interval self) 0) as [H0|H0];
    eexists _, _; (split; [reflexivity|]);
    rewrite <- (Z.mod_divide _ _ Hk); split; eauto.
  - intros [x Hx]; discriminate.
  - intros; contradiction.
Qed.

Lemma add_turn_trigger_for_any_interval_witness :
  exists (v : option DriftMetrics.t) (self' : t),
    add_turn (V := raising_vectorizer)
      (set_north_star (__init__ default_similarity_threshold (-2)) "the")
      "and" "of" 0 = (Return v, self') /\
    (is_Some v <->
     (check_interval
        (set_north_star (__init__ default_similarity_threshold (-2)) "the") |
      Z.of_nat (length (conversation_history
        (set_north_star (__init__ default_similarity_threshold (-2)) "the")))
      + 1)).
Proof.
  apply (add_turn_trigger_for_any_interval raising_vectorizer
           (set_north_star (__init__ default_similarity_threshold (-2)) "the")
           "and" "of" 0).
  - exists "the". split; [reflexivity|discriminate].
  - discriminate.
Defined.
